(** * Archon login server: fixed-layout records, packet framing, configuration

    A shallow embedding of
    - [character.go]: the fixed-layout record types of the PSO Blue Burst
      protocol (guildcards, stats, inventory, bank, characters);
    - [login_server/server/packets.go]: packet header, welcome packet,
      [SendPacket] and [SendWelcome];
    - [login_server/server/configuration.go]: [enforceDefaults],
      [InitFromFile], [HostnameBytes] and [Database].

    Integers of width w are values of [Z] with their range written out,
    bytes are 8-bit [Z]s, Go strings are [string]s (sequences of 8-bit
    characters), Go panics are an explicit [Panicked] outcome, and package
    level variables and the connection of a client are passed explicitly. *)

From Stdlib Require Import ZArith String Ascii List Bool Lia.
Import ListNotations.
Open Scope Z_scope.
#[local] Set Warnings "-register-all".

(** ** Go runtime notions used by the sources *)

(** A Go call either returns or panics. *)
Inductive outcome (A : Type) : Type :=
| Returned (a : A)
| Panicked (msg : string).
Arguments Returned {A} a.
Arguments Panicked {A} msg.

(** Go's [error] interface value; [None] is [nil]. *)
Definition error := string.

Definition is_byte (z : Z) : bool := (0 <=? z) && (z <? 256).

(** The built-in [copy(dst, src)]: the first [min (len dst) (len src)]
    elements of [dst] are overwritten, the length of [dst] is kept. *)
Definition go_copy {A : Type} (dst src : list A) : list A :=
  let n := Nat.min (length dst) (length src) in
  firstn n src ++ skipn n dst.

(** [[]byte(s)] for a Go string. *)
Fixpoint bytes_of_string (s : string) : list Z :=
  match s with
  | EmptyString => []
  | String c s' => Z.of_N (N_of_ascii c) :: bytes_of_string s'
  end.

(** ** Wire types: the shapes of Go's fixed-size data *)

Inductive prim : Type := u8 | u16 | u32 | f32.

Inductive ty : Type :=
| Prim (k : prim)
| Arr (n : nat) (elem : ty)
| Struct (fields : list (string * ty)).

(** A Go value as reflection sees it.  A [float32] is carried as its 32-bit
    IEEE pattern, which is what the wire holds. *)
Inductive value : Type :=
| VNum (k : prim) (z : Z)
| VArray (elems : list value)
| VStruct (fields : list (string * value)).

Definition prim_eqb (a b : prim) : bool :=
  match a, b with
  | u8, u8 | u16, u16 | u32, u32 | f32, f32 => true
  | _, _ => false
  end.

(** Width of a scalar in bytes. *)
Definition width (k : prim) : nat :=
  match k with
  | u8 => 1
  | u16 => 2
  | u32 | f32 => 4
  end%nat.

(** Declared constant size of a type on the packed wire. *)
Fixpoint sizeof (t : ty) : nat :=
  match t with
  | Prim k => width k
  | Arr n elem => (n * sizeof elem)%nat
  | Struct fields =>
      (fix sum (fs : list (string * ty)) : nat :=
         match fs with
         | [] => 0
         | (_, ft) :: fs' => sizeof ft + sum fs'
         end%nat) fields
  end.

(** A value is valid for a type when it has the type's shape (array
    lengths, field names and order) and every scalar is in range. *)
Fixpoint has_type (t : ty) (v : value) {struct t} : bool :=
  match t, v with
  | Prim k, VNum k' z =>
      prim_eqb k k' && (0 <=? z) && (z <? 2 ^ (8 * Z.of_nat (width k)))
  | Arr n elem, VArray vs =>
      Nat.eqb (length vs) n && forallb (has_type elem) vs
  | Struct fields, VStruct vfields =>
      (fix go (fs : list (string * ty)) (vs : list (string * value)) : bool :=
         match fs, vs with
         | [], [] => true
         | (name, ft) :: fs', (name', fv) :: vs' =>
             String.eqb name name' && has_type ft fv && go fs' vs'
         | _, _ => false
         end) fields vfields
  | _, _ => false
  end.

(** The zero value of a type, as [new(T)] allocates it. *)
Fixpoint zero_value (t : ty) : value :=
  match t with
  | Prim k => VNum k 0
  | Arr n elem => VArray (repeat (zero_value elem) n)
  | Struct fields =>
      VStruct
        ((fix go (fs : list (string * ty)) : list (string * value) :=
            match fs with
            | [] => []
            | (name, ft) :: fs' => (name, zero_value ft) :: go fs'
            end) fields)
  end.

Definition struct_fields (t : ty) : list (string * ty) :=
  match t with
  | Struct fs => fs
  | _ => []
  end.

Definition value_fields (v : value) : list (string * value) :=
  match v with
  | VStruct fs => fs
  | _ => []
  end.

(** [buf[off : off+len]] *)
Definition slice (buf : list Z) (off len : nat) : list Z :=
  firstn len (skipn off buf).

(** ** Little-endian scalars ([encoding/binary], [binary.LittleEndian]) *)

(** [PutUintN]: [b[i] = byte(v >> (8*i))]. *)
Fixpoint le_bytes (n : nat) (z : Z) : list Z :=
  match n with
  | O => []
  | S n' => Z.land z 255 :: le_bytes n' (Z.shiftr z 8)
  end.

(** [UintN]: [b[0] | b[1]<<8 | ...]. *)
Fixpoint le_value (bs : list Z) : Z :=
  match bs with
  | [] => 0
  | b :: bs' => Z.lor b (Z.shiftl (le_value bs') 8)
  end.

(** ** Record encoding and decoding *)

Inductive decode_error : Type := ShapeError.

Inductive result (A : Type) : Type :=
| Ok (a : A)
| Err (e : decode_error).
Arguments Ok {A} a.
Arguments Err {A} e.

(** Modelled from the spec: the serializer [util.BytesFromStruct] of package
    [libarchon/util] is called by [SendWelcome]; its source is not
    available.  Per the spec (4.1, 4.2) a record is serialized by walking its
    fields in declared order, every scalar little-endian at its fixed width,
    arrays and embedded records flattened in place, nothing added between
    members. *)
Fixpoint encode (v : value) : list Z :=
  match v with
  | VNum k z => le_bytes (width k) z
  | VArray elems => flat_map encode elems
  | VStruct fields =>
      (fix go (fs : list (string * value)) : list Z :=
         match fs with
         | [] => []
         | (_, fv) :: fs' => encode fv ++ go fs'
         end) fields
  end.

(** Modelled from the spec: [util.BytesFromStruct], the name under which
    [packets.go] calls the serializer. *)
Definition BytesFromStruct (v : value) : list Z := encode v.

(** Modelled from the spec: the decoder of the record layer, whose source
    is not available.  Per the spec (4.1, 7) decoding is the inverse
    walk: each scalar takes its fixed width from the front of the buffer,
    and running out of bytes is a [ShapeError].  [parse] returns the value
    together with the bytes it did not consume. *)
Fixpoint parse (t : ty) (buf : list Z) {struct t} : result (value * list Z) :=
  match t with
  | Prim k =>
      if (length buf <? width k)%nat then Err ShapeError
      else Ok (VNum k (le_value (firstn (width k) buf)), skipn (width k) buf)
  | Arr n elem =>
      match
        (fix elems (n : nat) (buf : list Z) : result (list value * list Z) :=
           match n with
           | O => Ok ([], buf)
           | S n' =>
               match parse elem buf with
               | Err e => Err e
               | Ok (v, rest) =>
                   match elems n' rest with
                   | Err e => Err e
                   | Ok (vs, rest') => Ok (v :: vs, rest')
                   end
               end
           end) n buf
      with
      | Err e => Err e
      | Ok (vs, rest) => Ok (VArray vs, rest)
      end
  | Struct fields =>
      match
        (fix go (fs : list (string * ty)) (buf : list Z)
           : result (list (string * value) * list Z) :=
           match fs with
           | [] => Ok ([], buf)
           | (name, ft) :: fs' =>
               match parse ft buf with
               | Err e => Err e
               | Ok (v, rest) =>
                   match go fs' rest with
                   | Err e => Err e
                   | Ok (vs, rest') => Ok ((name, v) :: vs, rest')
                   end
               end
           end) fields buf
      with
      | Err e => Err e
      | Ok (vs, rest) => Ok (VStruct vs, rest)
      end
  end.

(** Modelled from the spec: decoding a whole buffer as one record.  Per the
    spec (7) a buffer too short or too long for the record's declared size
    is a [ShapeError]. *)
Definition decode (t : ty) (buf : list Z) : result value :=
  match parse t buf with
  | Err e => Err e
  | Ok (v, []) => Ok v
  | Ok (_, _ :: _) => Err ShapeError
  end.

(** ** character.go: the record types *)

Definition bytes (n : nat) : ty := Arr n (Prim u8).
Definition utf16 (n : nat) : ty := Arr n (Prim u16).

Open Scope string_scope.

Definition GuildcardEntry : ty :=
  Struct
    [ ("Guildcard", Prim u32);
      ("Name", utf16 24);
      ("TeamName", utf16 16);
      ("Description", utf16 88);
      ("Reserved", Prim u8);
      ("Language", Prim u8);
      ("SectionID", Prim u8);
      ("CharClass", Prim u8);
      ("padding", Prim u32);
      ("Comment", utf16 88) ].

Definition GuildcardData : ty :=
  Struct
    [ ("Unknown", bytes 0x114);
      ("Blocked", bytes 0x1DE8);
      ("Unknown2", bytes 0x78);
      ("Entries", Arr 104 GuildcardEntry);
      ("Unknown3", bytes 0x1BC) ].

Definition CharacterStats : ty :=
  Struct
    [ ("ATP", Prim u16);
      ("MST", Prim u16);
      ("EVP", Prim u16);
      ("HP", Prim u16);
      ("DFP", Prim u16);
      ("TP", Prim u16);
      ("LCK", Prim u16);
      ("ATA", Prim u16) ].

Definition CharacterInfo : ty :=
  Struct
    [ ("NameColorChksm", Prim u32);
      ("SectionID", Prim u8);
      ("CharClass", Prim u8);
      ("V2flags", Prim u8);
      ("Version", Prim u8);
      ("V1Flags", Prim u32);
      ("Costume", Prim u16);
      ("Skin", Prim u16);
      ("Face", Prim u16);
      ("Head", Prim u16);
      ("Hair", Prim u16);
      ("HairRed", Prim u16);
      ("HairGreen", Prim u16);
      ("HairBlue", Prim u16);
      ("PropX", Prim f32);
      ("PropY", Prim f32);
      ("Name", utf16 16) ].

Definition Item : ty :=
  Struct
    [ ("Equipped", Prim u32);
      ("Flags", Prim u32);
      ("Data", Prim u32);
      ("ItemID", Prim u32);
      ("Data2", Prim u32) ].

Definition Inventory : ty :=
  Struct
    [ ("NumItems", Prim u8);
      ("HPMatsUsed", Prim u8);
      ("TPMatsUsed", Prim u8);
      ("Language", Prim u8);
      ("Items", Arr 30 Item) ].

Definition BankItem : ty :=
  Struct
    [ ("Data", Prim u32);
      ("ItemID", Prim u32);
      ("Data2", Prim u32);
      ("Amount", Prim u16);
      ("Flags", Prim u16) ].

Definition Bank : ty :=
  Struct
    [ ("NumItems", Prim u32);
      ("Meseta", Prim u32);
      ("Items", Arr 200 BankItem) ].

Definition Character : ty :=
  Struct
    [ ("CharacterStats", CharacterStats);
      ("Unknown", bytes 8);
      ("Level", Prim u32);
      ("Exp", Prim u32);
      ("Meseta", Prim u32);
      ("GuildcardStr", bytes 24);
      ("NameColor", Prim u32);
      ("Model", Prim u8);
      ("Unused", bytes 11);
      ("Playtime", Prim u32);
      ("CharacterInfo", CharacterInfo);
      ("Config", bytes 232);
      ("Techniques", bytes 20) ].

Definition CharacterPreview : ty :=
  Struct
    [ ("Experience", Prim u32);
      ("Level", Prim u32);
      ("GuildcardStr", bytes 16);
      ("Unknown", Arr 2 (Prim u32));
      ("NameColor", Prim u32);
      ("Model", Prim u8);
      ("Unused", bytes 15);
      ("CharacterInfo", CharacterInfo);
      ("Playtime", Prim u32) ].

Definition FullCharacter : ty :=
  Struct
    [ ("Inventory", Inventory);
      ("Character", Character);
      ("Unknown", bytes 16);
      ("Options", Prim u32);
      ("QuestData1", bytes 520);
      ("Bank", Bank);
      ("Guildcard", Prim u32);
      ("Name", utf16 16);
      ("TeamName", utf16 16);
      ("GuildcardDesc", utf16 88);
      ("Reserved1", Prim u8);
      ("Reserved2", Prim u8);
      ("SectionID", Prim u8);
      ("CharClass", Prim u8);
      ("Unknown2", Prim u32);
      ("SymbolChats", bytes 1248);
      ("Shortcuts", bytes 2624);
      ("Autoreply", utf16 172);
      ("Infoboard", utf16 172);
      ("Unknown3", bytes 28);
      ("ChallengeData", bytes 320);
      ("TechMenu", bytes 40);
      ("Unknown4", bytes 44);
      ("QuestData2", bytes 88);
      ("Unknown5", bytes 276);
      ("KeyConfig", bytes 364);
      ("JoystickConfig", bytes 56);
      ("Guildcard2", Prim u32);
      ("TeamID", Prim u32);
      ("TeamInfo", bytes 8);
      ("TeamPrivilege", Prim u16);
      ("Reserved3", Prim u16);
      ("TeamName2", utf16 16);
      ("TeamFlag", bytes 2048);
      ("TeamRewards", Arr 2 (Prim u32)) ].

(** ** packets.go *)

Definition BBHeaderSize : Z := 0x08.
Definition WelcomeType : Z := 0x03.
Definition DisconnectType : Z := 0x05.
Definition LoginType : Z := 0x93.
Definition WelcomeSize : Z := 0xC8.

Definition bbCopyright : string :=
  "Phantasy Star Online Blue Burst Game Server. Copyright 1999-2004 SONICTEAM.".

Definition BBPktHeader_ty : ty :=
  Struct [ ("Size", Prim u16); ("Type", Prim u16); ("Padding", Prim u32) ].

Definition WelcomePkt_ty : ty :=
  Struct
    [ ("Header", BBPktHeader_ty);
      ("Copyright", bytes 96);
      ("ServerVector", bytes 48);
      ("ClientVector", bytes 48) ].

(** Every record type the two packages declare. *)
Definition record_types : list (string * ty) :=
  [ ("GuildcardEntry", GuildcardEntry);
    ("GuildcardData", GuildcardData);
    ("CharacterStats", CharacterStats);
    ("CharacterInfo", CharacterInfo);
    ("Item", Item);
    ("Inventory", Inventory);
    ("BankItem", BankItem);
    ("Bank", Bank);
    ("Character", Character);
    ("CharacterPreview", CharacterPreview);
    ("FullCharacter", FullCharacter);
    ("BBPktHeader", BBPktHeader_ty);
    ("WelcomePkt", WelcomePkt_ty) ].

Close Scope string_scope.

(** The in-memory structs of [packets.go] as records; [Type_] is the field
    [Type] (a reserved word here). *)
Record BBPktHeader : Type := mkBBPktHeader {
  Size : Z;
  Type_ : Z;
  Padding : Z
}.

Record WelcomePkt : Type := mkWelcomePkt {
  Header : BBPktHeader;
  Copyright : list Z;
  ServerVector : list Z;
  ClientVector : list Z
}.

(** What [reflect.ValueOf] shows of a struct: its wire type and its fields
    in declared order. *)
Class Reflect (A : Type) : Type := {
  reflect_type : ty;
  reflect : A -> value
}.

Definition byte_array (l : list Z) : value := VArray (map (VNum u8) l).

Open Scope string_scope.

#[export] Instance Reflect_BBPktHeader : Reflect BBPktHeader := {
  reflect_type := BBPktHeader_ty;
  reflect h :=
    VStruct
      [ ("Size", VNum u16 (Size h));
        ("Type", VNum u16 (Type_ h));
        ("Padding", VNum u32 (Padding h)) ]
}.

#[export] Instance Reflect_WelcomePkt : Reflect WelcomePkt := {
  reflect_type := WelcomePkt_ty;
  reflect p :=
    VStruct
      [ ("Header", reflect (Header p));
        ("Copyright", byte_array (Copyright p));
        ("ServerVector", byte_array (ServerVector p));
        ("ClientVector", byte_array (ClientVector p)) ]
}.

Close Scope string_scope.

(** [new(WelcomePkt)] *)
Definition new_WelcomePkt : WelcomePkt :=
  {| Header := {| Size := 0; Type_ := 0; Padding := 0 |};
     Copyright := repeat 0 96;
     ServerVector := repeat 0 48;
     ClientVector := repeat 0 48 |}.

Definition set_Header_Size (x : Z) (p : WelcomePkt) : WelcomePkt :=
  {| Header := {| Size := x; Type_ := Type_ (Header p);
                  Padding := Padding (Header p) |};
     Copyright := Copyright p;
     ServerVector := ServerVector p;
     ClientVector := ClientVector p |}.

Definition set_Header_Type (x : Z) (p : WelcomePkt) : WelcomePkt :=
  {| Header := {| Size := Size (Header p); Type_ := x;
                  Padding := Padding (Header p) |};
     Copyright := Copyright p;
     ServerVector := ServerVector p;
     ClientVector := ClientVector p |}.

Definition set_Copyright (x : list Z) (p : WelcomePkt) : WelcomePkt :=
  {| Header := Header p; Copyright := x;
     ServerVector := ServerVector p; ClientVector := ClientVector p |}.

Definition set_ServerVector (x : list Z) (p : WelcomePkt) : WelcomePkt :=
  {| Header := Header p; Copyright := Copyright p;
     ServerVector := x; ClientVector := ClientVector p |}.

Definition set_ClientVector (x : list Z) (p : WelcomePkt) : WelcomePkt :=
  {| Header := Header p; Copyright := Copyright p;
     ServerVector := ServerVector p; ClientVector := x |}.

(** The transport behind [client.conn], an [io.Writer]:
    [Write(b) (n int, err error)].  What a connection answers may depend on
    everything written to it so far; [sent] records the calls. *)
Record Conn : Type := mkConn {
  respond : list (list Z) -> list Z -> Z * option error;
  sent : list (list Z)
}.

Definition Write (c : Conn) (b : list Z) : (Z * option error) * Conn :=
  (respond c (sent c) b, {| respond := respond c; sent := sent c ++ [b] |}).

(** The contract Go documents for [io.Writer]: "Write must return a non-nil
    error if it returns n < len(p)". *)
Definition conforming_writer (c : Conn) : Prop :=
  forall history b n err,
    respond c history b = (n, err) ->
    n < Z.of_nat (length b) -> err <> None.

(** The cipher state of one direction; only its [Vector] is read here. *)
Record PSOCrypt : Type := mkPSOCrypt {
  Vector : list Z
}.

(** [Client] is declared elsewhere in the package; these are the fields
    [packets.go] reads. *)
Record Client : Type := mkClient {
  conn : Conn;
  clientCrypt : PSOCrypt;
  serverCrypt : PSOCrypt
}.

Definition set_conn (c : Conn) (client : Client) : Client :=
  {| conn := c; clientCrypt := clientCrypt client;
     serverCrypt := serverCrypt client |}.

(** [SendPacket]: one [Write] of [pkt[:length]]; the byte count is dropped
    and only the error decides the result.  A slice is a list here (its
    capacity is its length), so [pkt[:length]] panics outside
    [0 .. len(pkt)]. *)
Definition SendPacket (client : Client) (pkt : list Z) (length : Z)
  : outcome Z * Client :=
  if (length <? 0) || (Z.of_nat (List.length pkt) <? length) then
    (Panicked "slice bounds out of range", client)
  else
    let '((_, err), conn') := Write (conn client) (firstn (Z.to_nat length) pkt) in
    match err with
    | Some _ => (Returned (-1), set_conn conn' client)
    | None => (Returned 0, set_conn conn' client)
    end.

(** [var copyrightBytes []byte = make([]byte, 96)], then [init()]. *)
Definition init (copyrightBytes : list Z) : list Z :=
  go_copy copyrightBytes (bytes_of_string bbCopyright).

Definition copyrightBytes : list Z := init (repeat 0 96).

(** [SendWelcome]; the package variable it reads is its first argument.
    The two print statements write to the console only. *)
Definition SendWelcome (copyrightBytes : list Z) (client : Client)
  : outcome Z * Client :=
  let pkt := new_WelcomePkt in
  let pkt := set_Header_Size WelcomeSize pkt in
  let pkt := set_Header_Type WelcomeType pkt in
  let pkt := set_Copyright (go_copy (Copyright pkt) copyrightBytes) pkt in
  let pkt := set_ClientVector
               (go_copy (ClientVector pkt) (Vector (clientCrypt client))) pkt in
  let pkt := set_ServerVector
               (go_copy (ServerVector pkt) (Vector (serverCrypt client))) pkt in
  let data := BytesFromStruct (reflect pkt) in
  SendPacket client data WelcomeSize.

(** ** configuration.go *)

Definition loginConfigFile : string := "login_config.json"%string.

Definition LogPriorityCritical : Z := 1.
Definition LogPriorityHigh : Z := 2.
Definition LogPriorityMedium : Z := 3.
Definition LogPriorityLow : Z := 4.

(** An open [*sql.DB]; [None] in [database] is the nil pointer. *)
Record sqlDB : Type := mkDB {
  dataSourceName : string
}.

Record configuration : Type := mkConfiguration {
  Hostname : string;
  LoginPort : string;
  CharacterPort : string;
  DBHost : string;
  DBPort : string;
  DBName : string;
  DBUsername : string;
  DBPassword : string;
  Logfile : string;
  LogLevel : Z;
  DebugMode : bool;
  database : option sqlDB
}.

Definition set_Hostname (x : string) (c : configuration) : configuration :=
  mkConfiguration x (LoginPort c) (CharacterPort c) (DBHost c) (DBPort c)
    (DBName c) (DBUsername c) (DBPassword c) (Logfile c) (LogLevel c)
    (DebugMode c) (database c).

Definition set_LoginPort (x : string) (c : configuration) : configuration :=
  mkConfiguration (Hostname c) x (CharacterPort c) (DBHost c) (DBPort c)
    (DBName c) (DBUsername c) (DBPassword c) (Logfile c) (LogLevel c)
    (DebugMode c) (database c).

Definition set_CharacterPort (x : string) (c : configuration) : configuration :=
  mkConfiguration (Hostname c) (LoginPort c) x (DBHost c) (DBPort c)
    (DBName c) (DBUsername c) (DBPassword c) (Logfile c) (LogLevel c)
    (DebugMode c) (database c).

Definition set_LogLevel (x : Z) (c : configuration) : configuration :=
  mkConfiguration (Hostname c) (LoginPort c) (CharacterPort c) (DBHost c)
    (DBPort c) (DBName c) (DBUsername c) (DBPassword c) (Logfile c) x
    (DebugMode c) (database c).

(** [new(configuration)] *)
Definition new_configuration : configuration :=
  mkConfiguration EmptyString EmptyString EmptyString EmptyString EmptyString
    EmptyString EmptyString EmptyString EmptyString 0 false None.

Definition enforceDefaults (config : configuration) : configuration :=
  let config :=
    if String.eqb (Hostname config) EmptyString then set_Hostname "127.0.0.1" config
    else config in
  let config :=
    if String.eqb (LoginPort config) EmptyString then set_LoginPort "12000" config
    else config in
  let config :=
    if String.eqb (CharacterPort config) EmptyString then set_CharacterPort "12001" config
    else config in
  if (LogLevel config <? LogPriorityCritical)
     || (LogLevel config >? LogPriorityLow)
  then set_LogLevel LogPriorityCritical config
  else config.

Section InitFromFile.
(** The file system and the JSON decoder are Go's: [ioutil.ReadFile]
    answers with the file's bytes or an error, [json.Unmarshal] fills the
    configuration from them however it does (its error is dropped). *)
Variable ReadFile : string -> list Z * option error.
Variable Unmarshal : list Z -> configuration -> configuration.

Definition InitFromFile (config : configuration) (fileName : string)
  : option error * configuration :=
  let '(data, err) := ReadFile fileName in
  match err with
  | Some e => (Some e, config)
  | None =>
      let config := Unmarshal data config in
      let config := enforceDefaults config in
      (None, config)
  end.
End InitFromFile.

(** What [enforceDefaults] establishes. *)
Definition defaults_enforced (c : configuration) : Prop :=
  Hostname c <> EmptyString /\ LoginPort c <> EmptyString
  /\ CharacterPort c <> EmptyString
  /\ LogPriorityCritical <= LogLevel c <= LogPriorityLow.

Definition Database (config : configuration) : outcome sqlDB :=
  match database config with
  | None => Panicked "Attempt to reference uninitialized database"
  | Some db => Returned db
  end.

(** [strings.Split(s, sep)] for a one-character separator: the substrings
    between the separators, [[s]] when there is none. *)
Fixpoint Split (s : string) (sep : ascii) : list string :=
  match s with
  | EmptyString => [EmptyString]
  | String c s' =>
      if Ascii.eqb c sep then EmptyString :: Split s' sep
      else
        match Split s' sep with
        | part :: parts => String c part :: parts
        | [] => [String c EmptyString]
        end
  end.

Definition ErrSyntax : error := "invalid syntax"%string.
Definition ErrRange : error := "value out of range"%string.

(** The digit loop of [strconv.ParseUint(s, 10, 8)]: a character that is
    not a decimal digit ends it with 0 and a syntax error, a value above
    [maxVal = 1<<8 - 1] ends it with [maxVal] and a range error.  (Early
    Go releases answer [1<<64 - 1] there; its [uint8] is the same 255.) *)
Fixpoint ParseUint_digits (s : string) (n : Z) : Z * option error :=
  match s with
  | EmptyString => (n, None)
  | String c s' =>
      let d := Z.of_N (N_of_ascii c) in
      if (d <? 48) || (57 <? d) then (0, Some ErrSyntax)
      else if n >=? (2 ^ 64 - 1) / 10 + 1 then (255, Some ErrRange)
      else
        let n1 := n * 10 + (d - 48) in
        if 255 <? n1 then (255, Some ErrRange)
        else ParseUint_digits s' n1
  end.

(** [strconv.ParseUint(s, 10, 8)] *)
Definition ParseUint (s : string) : Z * option error :=
  match s with
  | EmptyString => (0, Some ErrSyntax)
  | _ => ParseUint_digits s 0
  end.

Definition uint8 (z : Z) : Z := Z.land z 255.

(** [a[i] = x] on a fixed-size array. *)
Fixpoint set_index (a : list Z) (i : nat) (x : Z) : list Z :=
  match a, i with
  | [], _ => []
  | _ :: a', O => x :: a'
  | y :: a', S i' => y :: set_index a' i' x
  end.

(** [for i < 4 { tmp, _ := ParseUint(parts[i]); cachedHostBytes[i] = uint8(tmp) }],
    with [todo] iterations left; [parts[i]] panics past the end of
    [parts], keeping what was already stored. *)
Fixpoint HostnameBytes_loop (parts : list string) (todo i : nat)
  (cachedHostBytes : list Z) : outcome unit * list Z :=
  match todo with
  | O => (Returned tt, cachedHostBytes)
  | S todo' =>
      match nth_error parts i with
      | None => (Panicked "index out of range", cachedHostBytes)
      | Some part =>
          let '(tmp, _) := ParseUint part in
          HostnameBytes_loop parts todo' (S i)
            (set_index cachedHostBytes i (uint8 tmp))
      end
  end.

(** [var cachedHostBytes [4]byte] *)
Definition cachedHostBytes_zero : list Z := [0; 0; 0; 0].

(** [HostnameBytes], passing the package variable [cachedHostBytes]: the
    result and the variable afterwards. *)
Definition HostnameBytes (config : configuration) (cachedHostBytes : list Z)
  : outcome (list Z) * list Z :=
  if nth 0 cachedHostBytes 0 =? 0 then
    let parts := Split (Hostname config) "."%char in
    match HostnameBytes_loop parts 4 0 cachedHostBytes with
    | (Returned _, cache') => (Returned cache', cache')
    | (Panicked msg, cache') => (Panicked msg, cache')
    end
  else (Returned cachedHostBytes, cachedHostBytes).

(** ** The member walks, named

    The walks over the members of a struct and the elements of an array
    that [sizeof], [has_type], [encode] and [parse] carry inside, as
    functions of their own; each is convertible with the inner walk. *)

Fixpoint sizeof_fields (fs : list (string * ty)) : nat :=
  match fs with
  | [] => 0
  | (_, ft) :: fs' => sizeof ft + sizeof_fields fs'
  end%nat.

Fixpoint has_type_fields (fs : list (string * ty)) (vs : list (string * value))
  : bool :=
  match fs, vs with
  | [], [] => true
  | (name, ft) :: fs', (name', fv) :: vs' =>
      String.eqb name name' && has_type ft fv && has_type_fields fs' vs'
  | _, _ => false
  end.

Fixpoint encode_fields (fs : list (string * value)) : list Z :=
  match fs with
  | [] => []
  | (_, fv) :: fs' => encode fv ++ encode_fields fs'
  end.

Definition parse_elems (elem : ty)
  : nat -> list Z -> result (list value * list Z) :=
  fix elems (n : nat) (buf : list Z) : result (list value * list Z) :=
    match n with
    | O => Ok ([], buf)
    | S n' =>
        match parse elem buf with
        | Err e => Err e
        | Ok (v, rest) =>
            match elems n' rest with
            | Err e => Err e
            | Ok (vs, rest') => Ok (v :: vs, rest')
            end
        end
    end.

Fixpoint parse_fields (fs : list (string * ty)) (buf : list Z)
  : result (list (string * value) * list Z) :=
  match fs with
  | [] => Ok ([], buf)
  | (name, ft) :: fs' =>
      match parse ft buf with
      | Err e => Err e
      | Ok (v, rest) =>
          match parse_fields fs' rest with
          | Err e => Err e
          | Ok (vs, rest') => Ok ((name, v) :: vs, rest')
          end
      end
  end.

(** ** Sample inputs *)

(** A connection that takes one byte of whatever it is given and reports
    no error. *)
Definition one_byte_conn : Conn :=
  {| respond := fun _ _ => (1, None); sent := [] |}.

(** A connection that takes everything it is given. *)
Definition good_conn : Conn :=
  {| respond := fun _ b => (Z.of_nat (length b), None); sent := [] |}.

(** A connection whose every write fails. *)
Definition broken_conn : Conn :=
  {| respond := fun _ _ => (0, Some "broken pipe"%string); sent := [] |}.

Definition sample_client (c : Conn) : Client :=
  {| conn := c;
     clientCrypt := {| Vector := map Z.of_nat (seq 1 48) |};
     serverCrypt := {| Vector := map Z.of_nat (seq 101 48) |} |}.

(** ** configuration.go: the singleton, logging and the database *)

(** [GetConfig], passing the package variable [loginConfig] ([None] is the
    nil pointer): the configuration the returned pointer refers to, and
    the variable afterwards. *)
Definition GetConfig (loginConfig : option configuration)
  : configuration * option configuration :=
  match loginConfig with
  | None => (new_configuration, Some new_configuration)
  | Some config => (config, Some config)
  end.

(** [LogTypeInfo], [LogTypeWarning] and [LogTypeError] are [1 << iota] on
    the fifth, sixth and seventh line of the constant block, where [iota]
    is 4, 5 and 6. *)
Definition LogTypeInfo : Z := Z.shiftl 1 4.
Definition LogTypeWarning : Z := Z.shiftl 1 5.
Definition LogTypeError : Z := Z.shiftl 1 6.

Definition nl : string := String (ascii_of_nat 10) EmptyString.

Definition logFileName : string := "login_server.log"%string.

(** An argument handed to [fmt.Printf]. *)
Inductive printf_arg : Type :=
| ArgNilFile
| ArgErrorText (e : error)
| ArgError (e : error).

(** What [LogMsg] does to the outside, in order. *)
Inductive log_event : Type :=
| Printf (format : string) (args : list printf_arg)
| OpenFile_ (name : string)
| WriteString_ (name : string) (s : string)
| Close_ (name : string).

Definition set_Logfile (x : string) (c : configuration) : configuration :=
  mkConfiguration (Hostname c) (LoginPort c) (CharacterPort c) (DBHost c)
    (DBPort c) (DBName c) (DBUsername c) (DBPassword c) x (LogLevel c)
    (DebugMode c) (database c).

Definition set_database (x : option sqlDB) (c : configuration)
  : configuration :=
  mkConfiguration (Hostname c) (LoginPort c) (CharacterPort c) (DBHost c)
    (DBPort c) (DBName c) (DBUsername c) (DBPassword c) (Logfile c)
    (LogLevel c) (DebugMode c) x.

Section LogMsg.
(** The clock and the file system are Go's: [timestamp] is what
    [time.Now().Format("06-01-02 15:04:05")] gives, [OpenFile name] is the
    error of [os.OpenFile(name, O_CREATE|O_WRONLY|O_APPEND, 0666)], and
    [WriteString name s] the error of writing [s] to the file opened. *)
Variable timestamp : string.
Variable OpenFile : string -> option error.
Variable WriteString : string -> string -> option error.

Definition LogMsg (loginConfig : option configuration) (message : string)
  (logType priority : Z) : list log_event * option configuration :=
  let '(config, loginConfig) := GetConfig loginConfig in
  if priority >? LogLevel config then ([], loginConfig)
  else
    let logMsg :=
      if logType =? LogTypeError then
        (timestamp ++ " [ERROR] " ++ message ++ nl)%string
      else if logType =? LogTypeWarning then
        (timestamp ++ " [WARNING] " ++ message ++ nl)%string
      else if logType =? LogTypeInfo then
        (timestamp ++ " [INFO] " ++ message ++ nl)%string
      else EmptyString in
    if String.eqb (Logfile config) EmptyString then
      ([Printf logMsg []], loginConfig)
    else
      match OpenFile logFileName with
      | Some err =>
          ([OpenFile_ logFileName;
            Printf (nl ++ "WARNING: Failed to open log file %s: %s" ++ nl)
              [ArgNilFile; ArgErrorText err]],
           loginConfig)
      | None =>
          match WriteString logFileName logMsg with
          | Some err =>
              ([OpenFile_ logFileName;
                WriteString_ logFileName logMsg;
                Printf (nl ++ "WARNING: Error writing to log file: %s" ++ nl)
                  [ArgError err];
                Close_ logFileName],
               loginConfig)
          | None =>
              ([OpenFile_ logFileName;
                WriteString_ logFileName logMsg;
                Close_ logFileName],
               loginConfig)
          end
      end.
End LogMsg.

(** The tag [LogMsg] puts between time stamp and message for each of the
    three log types it knows; [None] for any other value. *)
Definition log_tag (logType : Z) : option string :=
  if logType =? LogTypeError then Some " [ERROR] "%string
  else if logType =? LogTypeWarning then Some " [WARNING] "%string
  else if logType =? LogTypeInfo then Some " [INFO] "%string
  else None.

(** The file an event touches, if it touches one. *)
Definition event_file (e : log_event) : option string :=
  match e with
  | Printf _ _ => None
  | OpenFile_ name | WriteString_ name _ | Close_ name => Some name
  end.

Section InitDb.
(** The database driver is Go's: [sql_Open driver dsn] is
    [sql.Open(driver, dsn)], a handle (or nil) and an error; [Ping db] is
    the error of [db.Ping()]. *)
Variable sql_Open : string -> string -> option sqlDB * option error.
Variable Ping : sqlDB -> option error.

(** [fmt.Sprintf("%s:%s@tcp(%s:%s)/%s", ...)] on strings. *)
Definition dbName (config : configuration) : string :=
  (DBUsername config ++ ":" ++ DBPassword config ++ "@tcp("
     ++ DBHost config ++ ":" ++ DBPort config ++ ")/" ++ DBName config)%string.

(** [InitDb]: the handle is stored whatever [sql.Open] answered, and the
    result is [err] on both paths.  [Ping] on a nil handle is a nil
    dereference. *)
Definition InitDb (config : configuration)
  : outcome (option error) * configuration :=
  let '(db, err) := sql_Open "mysql" (dbName config) in
  let config := set_database db config in
  match err with
  | Some _ => (Returned err, config)
  | None =>
      match database config with
      | None => (Panicked "invalid memory address or nil pointer dereference",
                 config)
      | Some handle =>
          match Ping handle with
          | Some _ => (Returned err, config)
          | None => (Returned None, config)
          end
      end
  end.
End InitDb.

(** ** Dotted-decimal notation, to state what [HostnameBytes] reads *)

Definition digit_char (d : Z) : ascii := ascii_of_N (Z.to_N (48 + d)).

(** The decimal numeral of a number below 1000, without leading zeros. *)
Definition decimal (n : Z) : string :=
  let ones := String (digit_char (n mod 10)) EmptyString in
  let tens := String (digit_char (n / 10 mod 10)) ones in
  if n <? 10 then ones
  else if n <? 100 then tens
  else String (digit_char (n / 100 mod 10)) tens.

Definition dotted_quad (a b c d : Z) : string :=
  (decimal a ++ "." ++ decimal b ++ "." ++ decimal c ++ "." ++ decimal d)%string.

(** Number of occurrences of a character. *)
Fixpoint count_char (sep : ascii) (s : string) : nat :=
  match s with
  | EmptyString => 0
  | String c s' =>
      ((if Ascii.eqb c sep then 1 else 0) + count_char sep s')%nat
  end.

(** A [[4]byte] value. *)
Definition is_host_bytes (l : list Z) : bool :=
  Nat.eqb (length l) 4 && forallb is_byte l.

(** * Properties *)

(** ** Induction over wire types and values *)

Lemma ty_ind' (P : ty -> Prop)
  (HPrim : forall k, P (Prim k))
  (HArr : forall n elem, P elem -> P (Arr n elem))
  (HStruct : forall fs, Forall (fun f => P (snd f)) fs -> P (Struct fs)) :
  forall t, P t.
Proof.
  fix IH 1.
  intros [k | n elem | fs].
  - apply HPrim.
  - apply HArr, IH.
  - apply HStruct.
    induction fs as [| [name ft] fs IHfs]; constructor.
    + apply IH.
    + exact IHfs.
Qed.

Lemma sizeof_Struct fs : sizeof (Struct fs) = sizeof_fields fs.
Proof. reflexivity. Qed.

Lemma has_type_Struct fs vs :
  has_type (Struct fs) (VStruct vs) = has_type_fields fs vs.
Proof. reflexivity. Qed.

Lemma encode_VStruct vs : encode (VStruct vs) = encode_fields vs.
Proof. reflexivity. Qed.

Lemma parse_Arr n elem buf :
  parse (Arr n elem) buf =
  match parse_elems elem n buf with
  | Err e => Err e
  | Ok (vs, rest) => Ok (VArray vs, rest)
  end.
Proof. reflexivity. Qed.

Lemma parse_Struct fs buf :
  parse (Struct fs) buf =
  match parse_fields fs buf with
  | Err e => Err e
  | Ok (vs, rest) => Ok (VStruct vs, rest)
  end.
Proof. reflexivity. Qed.

(** ** Little-endian scalars *)

Lemma le_bytes_length n z : length (le_bytes n z) = n.
Proof.
  revert z; induction n as [| n IHn]; intros z; simpl.
  - reflexivity.
  - now rewrite IHn.
Qed.

Lemma lor_low_high z : Z.lor (Z.land z 255) (Z.shiftl (Z.shiftr z 8) 8) = z.
Proof.
  change 255 with (Z.ones 8).
  apply Z.bits_inj'; intros i Hi.
  rewrite Z.lor_spec, Z.land_spec.
  destruct (Z.ltb_spec i 8) as [Hlt | Hge].
  - rewrite Z.ones_spec_low, Z.shiftl_spec_low by lia.
    now rewrite andb_true_r, orb_false_r.
  - rewrite Z.ones_spec_high, Z.shiftl_spec, Z.shiftr_spec by lia.
    rewrite andb_false_r; simpl.
    f_equal; lia.
Qed.

Lemma le_value_le_bytes n z :
  0 <= z < 2 ^ (8 * Z.of_nat n) -> le_value (le_bytes n z) = z.
Proof.
  revert z; induction n as [| n IHn]; intros z Hz.
  - simpl in *. lia.
  - cbn [le_bytes le_value].
    rewrite IHn.
    + apply lor_low_high.
    + rewrite Z.shiftr_div_pow2 by lia.
      replace (8 * Z.of_nat (S n)) with (8 * Z.of_nat n + 8) in Hz by lia.
      rewrite Z.pow_add_r in Hz by lia.
      split.
      * apply Z.div_pos; lia.
      * apply Z.div_lt_upper_bound; lia.
Qed.

Lemma prim_eqb_eq a b : prim_eqb a b = true -> a = b.
Proof. destruct a, b; simpl; congruence. Qed.

(** ** Size of an encoding *)

Lemma encode_length : forall t v,
  has_type t v = true -> length (encode v) = sizeof t.
Proof.
  induction t as [k | n elem IH | fs IH] using ty_ind'; intros v Hv.
  - destruct v as [k' z | |]; try discriminate.
    cbn [has_type] in Hv.
    apply andb_prop in Hv as [Hv _]. apply andb_prop in Hv as [Hk _].
    apply prim_eqb_eq in Hk. subst k'.
    cbn [encode sizeof]. apply le_bytes_length.
  - destruct v as [| vs |]; try discriminate.
    simpl in Hv. apply andb_prop in Hv as [Hn Hall].
    apply Nat.eqb_eq in Hn. subst n.
    cbn [encode sizeof].
    induction vs as [| v vs IHvs]; simpl in *.
    + reflexivity.
    + apply andb_prop in Hall as [Hv Hall].
      rewrite length_app, (IH _ Hv), (IHvs Hall). reflexivity.
  - destruct v as [| | vs]; try discriminate.
    rewrite has_type_Struct in Hv.
    rewrite encode_VStruct, sizeof_Struct.
    revert vs Hv.
    induction IH as [| [name ft] fs Hft _ IHfs]; intros vs Hv.
    + destruct vs; [reflexivity | discriminate].
    + destruct vs as [| [name' fv] vs]; [discriminate |].
      cbn [has_type_fields] in Hv.
      apply andb_prop in Hv as [Hv Hrest].
      apply andb_prop in Hv as [_ Hv].
      cbn [encode_fields sizeof_fields].
      rewrite length_app, (Hft _ Hv), (IHfs _ Hrest). reflexivity.
Qed.

(** ** Decoding what was encoded *)

Lemma firstn_app_exact {A} (l r : list A) n :
  length l = n -> firstn n (l ++ r) = l.
Proof.
  intros <-. rewrite firstn_app, Nat.sub_diag, firstn_all. simpl.
  apply app_nil_r.
Qed.

Lemma skipn_app_exact {A} (l r : list A) n :
  length l = n -> skipn n (l ++ r) = r.
Proof.
  intros <-. rewrite skipn_app, Nat.sub_diag, skipn_all. reflexivity.
Qed.

Lemma parse_elems_encode elem vs rest :
  (forall v rest, has_type elem v = true ->
                  parse elem (encode v ++ rest) = Ok (v, rest)) ->
  forallb (has_type elem) vs = true ->
  parse_elems elem (length vs) (flat_map encode vs ++ rest) = Ok (vs, rest).
Proof.
  intros IH. induction vs as [| v vs IHvs]; intros Hall.
  - reflexivity.
  - simpl in Hall. apply andb_prop in Hall as [Hv Hall].
    cbn [length flat_map parse_elems].
    rewrite <- app_assoc, (IH _ _ Hv).
    fold (parse_elems elem). now rewrite (IHvs Hall).
Qed.

Lemma parse_encode : forall t v rest,
  has_type t v = true -> parse t (encode v ++ rest) = Ok (v, rest).
Proof.
  induction t as [k | n elem IH | fs IH] using ty_ind'; intros v rest Hv.
  - destruct v as [k' z | |]; try discriminate.
    cbn [has_type] in Hv.
    apply andb_prop in Hv as [Hv Hhi]. apply andb_prop in Hv as [Hk Hlo].
    apply prim_eqb_eq in Hk. subst k'.
    apply Z.leb_le in Hlo. apply Z.ltb_lt in Hhi.
    cbn [encode parse].
    assert (Hlen : length (le_bytes (width k) z) = width k)
      by apply le_bytes_length.
    replace (length (le_bytes (width k) z ++ rest) <? width k)%nat with false.
    + rewrite (firstn_app_exact _ _ _ Hlen), (skipn_app_exact _ _ _ Hlen).
      rewrite le_value_le_bytes by lia. reflexivity.
    + symmetry. apply Nat.ltb_ge. rewrite length_app. lia.
  - destruct v as [| vs |]; try discriminate.
    simpl in Hv. apply andb_prop in Hv as [Hn Hall].
    apply Nat.eqb_eq in Hn. subst n.
    rewrite parse_Arr. cbn [encode].
    now rewrite (parse_elems_encode _ _ _ IH Hall).
  - destruct v as [| | vs]; try discriminate.
    rewrite has_type_Struct in Hv.
    rewrite parse_Struct, encode_VStruct.
    enough (H : parse_fields fs (encode_fields vs ++ rest) = Ok (vs, rest))
      by now rewrite H.
    revert vs rest Hv.
    induction IH as [| [name ft] fs Hft _ IHfs]; intros vs rest Hv.
    + destruct vs; [reflexivity | discriminate].
    + destruct vs as [| [name' fv] vs]; [discriminate |].
      cbn [has_type_fields] in Hv.
      apply andb_prop in Hv as [Hv Hrest].
      apply andb_prop in Hv as [Hname Hv].
      apply String.eqb_eq in Hname. subst name'.
      cbn [encode_fields parse_fields].
      rewrite <- app_assoc, (Hft _ _ Hv), (IHfs _ _ Hrest). reflexivity.
Qed.

(** ** What a successful parse consumed *)

Lemma parse_elems_length elem n :
  (forall buf v rest, parse elem buf = Ok (v, rest) ->
                      length buf = (sizeof elem + length rest)%nat) ->
  forall buf vs rest,
    parse_elems elem n buf = Ok (vs, rest) ->
    length buf = (n * sizeof elem + length rest)%nat.
Proof.
  intros IH. induction n as [| n IHn]; intros buf vs rest H.
  - simpl in H. injection H as _ <-. reflexivity.
  - cbn [parse_elems] in H. fold (parse_elems elem) in H.
    destruct (parse elem buf) as [[v r1] | e] eqn:E1; [| discriminate].
    destruct (parse_elems elem n r1) as [[vs' r2] | e] eqn:E2; [| discriminate].
    injection H as _ <-.
    apply IH in E1. apply IHn in E2. simpl. lia.
Qed.

Lemma parse_length : forall t buf v rest,
  parse t buf = Ok (v, rest) -> length buf = (sizeof t + length rest)%nat.
Proof.
  induction t as [k | n elem IH | fs IH] using ty_ind'; intros buf v rest H.
  - cbn [parse] in H.
    destruct (length buf <? width k)%nat eqn:E; [discriminate |].
    apply Nat.ltb_ge in E.
    injection H as _ <-. rewrite length_skipn. simpl. lia.
  - rewrite parse_Arr in H.
    destruct (parse_elems elem n buf) as [[vs r] | e] eqn:E; [| discriminate].
    injection H as _ <-.
    apply (parse_elems_length _ _ IH) in E. exact E.
  - rewrite parse_Struct in H.
    destruct (parse_fields fs buf) as [[vs r] | e] eqn:E; [| discriminate].
    injection H as _ <-. rewrite sizeof_Struct. clear v.
    revert buf vs E.
    induction IH as [| [name ft] fs Hft _ IHfs]; intros buf vs E.
    + simpl in E. injection E as _ <-. reflexivity.
    + cbn [parse_fields] in E.
      destruct (parse ft buf) as [[v r1] | e] eqn:E1; [| discriminate].
      destruct (parse_fields fs r1) as [[vs' r2] | e] eqn:E2; [| discriminate].
      injection E as _ <-.
      apply Hft in E1. apply IHfs in E2.
      cbn [snd] in E1. cbn [sizeof_fields]. lia.
Qed.

(** ** Where the members of a struct lie in its encoding *)

Lemma has_type_fields_nth fs : forall vs i name ft,
  has_type_fields fs vs = true ->
  nth_error fs i = Some (name, ft) ->
  exists fv, nth_error vs i = Some (name, fv) /\ has_type ft fv = true.
Proof.
  induction fs as [| [n0 t0] fs IHfs]; intros vs i name ft Hty Hnth.
  - destruct i; discriminate.
  - destruct vs as [| [n0' v0] vs]; [discriminate |].
    cbn [has_type_fields] in Hty.
    apply andb_prop in Hty as [Hty Hrest].
    apply andb_prop in Hty as [Hname Hv0].
    apply String.eqb_eq in Hname. subst n0'.
    destruct i as [| i]; simpl in Hnth.
    + injection Hnth as <- <-. exists v0. now split.
    + simpl. now apply IHfs.
Qed.

Lemma member_at_offset fs : forall vs i name fv,
  has_type_fields fs vs = true ->
  nth_error vs i = Some (name, fv) ->
  exists ft,
    nth_error fs i = Some (name, ft)
    /\ has_type ft fv = true
    /\ slice (encode_fields vs) (sizeof_fields (firstn i fs)) (sizeof ft)
       = encode fv.
Proof.
  induction fs as [| [n0 t0] fs IHfs]; intros vs i name fv Hty Hnth.
  - destruct vs; [destruct i |]; discriminate.
  - destruct vs as [| [n0' v0] vs]; [destruct i; discriminate |].
    cbn [has_type_fields] in Hty.
    apply andb_prop in Hty as [Hty Hrest].
    apply andb_prop in Hty as [Hname Hv0].
    apply String.eqb_eq in Hname. subst n0'.
    destruct i as [| i]; simpl in Hnth.
    + injection Hnth as <- <-. exists t0. repeat split; trivial.
      unfold slice. cbn [firstn sizeof_fields encode_fields skipn].
      apply firstn_app_exact, encode_length, Hv0.
    + destruct (IHfs _ _ _ _ Hrest Hnth) as (ft & Hft & Hfv & Hslice).
      exists ft. repeat split; trivial.
      unfold slice in *. cbn [firstn sizeof_fields encode_fields].
      rewrite Nat.add_comm, <- skipn_skipn.
      rewrite (skipn_app_exact _ _ _ (encode_length _ _ Hv0)).
      exact Hslice.
Qed.

(** C2.  In the packed encoding of any valid [FullCharacter], every member
    lies at the offset that is the sum of the sizes of the members declared
    before it; the [Bank] member is the sixth, after [Inventory] (604
    bytes), [Character] (400 bytes) and the gap [Unknown]/[Options]/
    [QuestData1] (16 + 4 + 520 = 540 bytes), that is at byte 1544. *)
Theorem FullCharacter_member_offsets : forall v,
  has_type FullCharacter v = true ->
  (forall i name fv,
     nth_error (value_fields v) i = Some (name, fv) ->
     exists ft,
       nth_error (struct_fields FullCharacter) i = Some (name, ft)
       /\ slice (encode v) (sizeof_fields (firstn i (struct_fields FullCharacter)))
            (sizeof ft) = encode fv)
  /\ (exists bank,
        nth_error (value_fields v) 5 = Some ("Bank"%string, bank)
        /\ has_type Bank bank = true
        /\ slice (encode v) 1544 (sizeof Bank) = encode bank)
  /\ sizeof Inventory = 604%nat
  /\ sizeof Character = 400%nat
  /\ sizeof (Struct (firstn 3 (skipn 2 (struct_fields FullCharacter)))) = 540%nat
  /\ sizeof_fields (firstn 5 (struct_fields FullCharacter))
     = (604 + 400 + 540)%nat.
Proof.
  intros v Hv.
  destruct v as [| | vs]; try discriminate.
  change (has_type_fields (struct_fields FullCharacter) vs = true) in Hv.
  rewrite encode_VStruct. cbn [value_fields].
  split; [| split].
  - intros i name fv Hnth.
    destruct (member_at_offset _ _ _ _ _ Hv Hnth) as (ft & Hft & _ & Hslice).
    exists ft. now split.
  - destruct (has_type_fields_nth _ vs 5%nat "Bank"%string Bank Hv eq_refl)
      as (bank & Hnth & Hbank).
    exists bank. repeat split; trivial.
    destruct (member_at_offset _ _ _ _ _ Hv Hnth) as (ft & Hft & _ & Hslice).
    injection Hft as <-. exact Hslice.
  - repeat split; vm_compute; reflexivity.
Qed.

Lemma FullCharacter_member_offsets_witness :
  exists bank,
    nth_error (value_fields (zero_value FullCharacter)) 5
    = Some ("Bank"%string, bank)
    /\ has_type Bank bank = true
    /\ slice (encode (zero_value FullCharacter)) 1544 (sizeof Bank)
       = encode bank.
Proof.
  apply (FullCharacter_member_offsets (zero_value FullCharacter)).
  vm_compute. reflexivity.
Defined.

(** C3.  Decoding the encoding of a valid value of any record type gives
    the value back, member by member; byte arrays ([Unknown], reserved and
    padding ranges included) are ordinary members and come back byte for
    byte.  A [float32] member is compared as its 32-bit pattern. *)
Theorem decode_encode_roundtrip : forall t v,
  has_type t v = true -> decode t (encode v) = Ok v.
Proof.
  intros t v Hv. unfold decode.
  rewrite <- (app_nil_r (encode v)).
  now rewrite (parse_encode _ _ [] Hv).
Qed.

Lemma decode_encode_roundtrip_witness :
  decode GuildcardData (encode (zero_value GuildcardData))
  = Ok (zero_value GuildcardData)
  /\ decode BBPktHeader_ty
       (encode (reflect (mkBBPktHeader 200 3 0xDEADBEEF)))
     = Ok (reflect (mkBBPktHeader 200 3 0xDEADBEEF)).
Proof.
  split.
  - apply (decode_encode_roundtrip GuildcardData). vm_compute. reflexivity.
  - apply (decode_encode_roundtrip BBPktHeader_ty). vm_compute. reflexivity.
Defined.

(** C5.  The encoding of a valid value of any record type has exactly the
    declared size of the type; an [Inventory] is encoded in
    4 + 30 * 20 = 604 bytes whatever [NumItems] and [Items] hold. *)
Theorem encode_fixed_size :
  (forall t v, has_type t v = true -> length (encode v) = sizeof t)
  /\ (forall v, has_type Inventory v = true -> length (encode v) = 604%nat)
  /\ sizeof Item = 20%nat
  /\ sizeof Inventory = (4 + 30 * 20)%nat.
Proof.
  split; [| split; [| split]].
  - exact encode_length.
  - intros v Hv. now rewrite (encode_length _ _ Hv).
  - reflexivity.
  - reflexivity.
Qed.

Lemma encode_fixed_size_witness :
  length (encode (zero_value Inventory)) = 604%nat
  /\ length (encode (zero_value FullCharacter)) = sizeof FullCharacter.
Proof.
  split.
  - apply (proj1 (proj2 encode_fixed_size)). vm_compute. reflexivity.
  - apply (proj1 encode_fixed_size). vm_compute. reflexivity.
Defined.

(** C8.  A buffer shorter than the declared size of a record type is
    rejected with [ShapeError]: neither the decoder nor the member walk
    under it yields a value from it. *)
Theorem decode_short_rejected : forall t buf,
  (length buf < sizeof t)%nat ->
  decode t buf = Err ShapeError /\ parse t buf = Err ShapeError.
Proof.
  intros t buf Hshort.
  assert (H : parse t buf = Err ShapeError).
  { destruct (parse t buf) as [[v rest] | []] eqn:E; [| reflexivity].
    apply parse_length in E. lia. }
  split; [| exact H].
  unfold decode. now rewrite H.
Qed.

Lemma decode_short_rejected_witness :
  decode Item (firstn 19 (encode (zero_value Item))) = Err ShapeError
  /\ parse Item (firstn 19 (encode (zero_value Item))) = Err ShapeError.
Proof.
  apply (decode_short_rejected Item). vm_compute. lia.
Defined.

(** ** packets.go: SendPacket *)

Lemma SendPacket_in_bounds client pkt len :
  0 <= len <= Z.of_nat (length pkt) ->
  SendPacket client pkt len =
  let w := Write (conn client) (firstn (Z.to_nat len) pkt) in
  (Returned (match snd (fst w) with Some _ => -1 | None => 0 end),
   set_conn (snd w) client).
Proof.
  intros Hlen. unfold SendPacket.
  replace ((len <? 0) || (Z.of_nat (length pkt) <? len)) with false.
  - destruct (Write (conn client) (firstn (Z.to_nat len) pkt))
      as [[n [e |]] c']; reflexivity.
  - symmetry. apply orb_false_intro; apply Z.ltb_ge; lia.
Qed.

(** C4, as the code has it.  [SendPacket] makes exactly one [Write] of
    [pkt[:length]] and answers -1 exactly when that write returned an
    error, 0 otherwise; the byte count the write returned is not looked at.
    A short write is therefore a failure when the connection keeps the
    [io.Writer] contract (a short count comes with an error). *)
Theorem SendPacket_reports_write_error : forall client pkt len,
  0 <= len <= Z.of_nat (length pkt) ->
  let b := firstn (Z.to_nat len) pkt in
  let n := fst (fst (Write (conn client) b)) in
  let err := snd (fst (Write (conn client) b)) in
  let r := SendPacket client pkt len in
  (err <> None -> fst r = Returned (-1))
  /\ (err = None -> fst r = Returned 0)
  /\ sent (conn (snd r)) = sent (conn client) ++ [b]
  /\ (conforming_writer (conn client) -> n < len -> fst r = Returned (-1)).
Proof.
  intros client pkt len Hlen b n err r.
  assert (Hr : r = (Returned (match err with Some _ => -1 | None => 0 end),
                    set_conn (snd (Write (conn client) b)) client))
    by (apply SendPacket_in_bounds; exact Hlen).
  assert (Herr : err <> None -> fst r = Returned (-1)).
  { rewrite Hr. simpl. destruct err; [reflexivity | congruence]. }
  repeat split.
  - exact Herr.
  - intros E. rewrite Hr, E. reflexivity.
  - rewrite Hr. reflexivity.
  - intros Hconf Hshort. apply Herr.
    apply (Hconf (sent (conn client)) b n).
    + subst n err. unfold Write. simpl.
      now destruct (respond (conn client) (sent (conn client)) b).
    + subst b. rewrite length_firstn. lia.
Qed.

Lemma SendPacket_reports_write_error_witness :
  fst (SendPacket (sample_client broken_conn) [1; 2; 3; 4] 4) = Returned (-1)
  /\ fst (SendPacket (sample_client good_conn) [1; 2; 3; 4] 4) = Returned 0.
Proof.
  split.
  - refine (proj1 (SendPacket_reports_write_error
                     (sample_client broken_conn) [1; 2; 3; 4] 4 _) _).
    + simpl; lia.
    + simpl; discriminate.
  - refine (proj1 (proj2 (SendPacket_reports_write_error
                            (sample_client good_conn) [1; 2; 3; 4] 4 _)) _).
    + simpl; lia.
    + reflexivity.
Defined.

(** C4 with the byte count taken into account fails: a connection that takes 1 byte of 4 and returns
    no error has not accepted the full byte count, and [SendPacket] reports
    success. *)
Lemma SendPacket_short_write_unreported :
  fst (Write (conn (sample_client one_byte_conn)) [1; 2; 3; 4]) = (1, None)
  /\ 1 < Z.of_nat (length [1; 2; 3; 4])
  /\ fst (SendPacket (sample_client one_byte_conn) [1; 2; 3; 4] 4)
     = Returned 0
  /\ ~ (forall client pkt len,
          0 <= len <= Z.of_nat (length pkt) ->
          fst (fst (Write (conn client) (firstn (Z.to_nat len) pkt))) < len ->
          fst (SendPacket client pkt len) = Returned (-1)).
Proof.
  split; [reflexivity |].
  split; [simpl; lia |].
  split; [reflexivity |].
  intros H.
  specialize (H (sample_client one_byte_conn) [1; 2; 3; 4] 4).
  discriminate H; simpl; lia.
Qed.

(** ** packets.go: SendWelcome *)

Lemma go_copy_length {A} (dst src : list A) :
  length (go_copy dst src) = length dst.
Proof.
  unfold go_copy. rewrite length_app, length_firstn, length_skipn. lia.
Qed.

Lemma go_copy_full {A} (dst src : list A) :
  length src = length dst -> go_copy dst src = src.
Proof.
  intros H. unfold go_copy. rewrite <- H, Nat.min_id.
  rewrite firstn_all, H, skipn_all. apply app_nil_r.
Qed.

Lemma encode_byte_array l : encode (byte_array l) = map uint8 l.
Proof.
  unfold byte_array. cbn [encode].
  induction l as [| z l IHl]; simpl.
  - reflexivity.
  - now rewrite IHl.
Qed.

Lemma uint8_byte z : is_byte z = true -> uint8 z = z.
Proof.
  unfold is_byte, uint8. intros H.
  apply andb_prop in H as [Hlo Hhi].
  apply Z.leb_le in Hlo. apply Z.ltb_lt in Hhi.
  change 255 with (Z.ones 8).
  rewrite Z.land_ones by lia. apply Z.mod_small. lia.
Qed.

Lemma map_uint8_bytes l : forallb is_byte l = true -> map uint8 l = l.
Proof.
  induction l as [| z l IHl]; simpl; intros H.
  - reflexivity.
  - apply andb_prop in H as [Hz Hl].
    now rewrite (uint8_byte _ Hz), (IHl Hl).
Qed.

(** What [SendWelcome] hands to [SendPacket]. *)
Lemma SendWelcome_data cb client :
  SendWelcome cb client =
  SendPacket client
    ([200; 0; 3; 0; 0; 0; 0; 0]
       ++ map uint8 (go_copy (repeat 0 96) cb)
       ++ map uint8 (go_copy (repeat 0 48) (Vector (serverCrypt client)))
       ++ map uint8 (go_copy (repeat 0 48) (Vector (clientCrypt client))))
    WelcomeSize.
Proof.
  unfold SendWelcome. f_equal.
  unfold BytesFromStruct.
  cbn [reflect Reflect_WelcomePkt Reflect_BBPktHeader].
  rewrite encode_VStruct. cbn [encode_fields].
  rewrite !encode_byte_array, encode_VStruct, app_nil_r.
  reflexivity.
Qed.

Section WelcomeFrame.
Variable cb : list Z.
Variable client : Client.

Local Notation "'frame'" :=
  ([200; 0; 3; 0; 0; 0; 0; 0]
     ++ map uint8 (go_copy (repeat 0 96) cb)
     ++ map uint8 (go_copy (repeat 0 48) (Vector (serverCrypt client)))
     ++ map uint8 (go_copy (repeat 0 48) (Vector (clientCrypt client)))).

Lemma welcome_frame_length : length frame = 200%nat.
Proof.
  rewrite !length_app, !length_map, !go_copy_length, !repeat_length.
  reflexivity.
Qed.

(** [SendWelcome] never panics: it performs the one write of
    [SendPacket], of the whole 200-byte frame, and leaves the cipher
    states alone. *)
Lemma SendWelcome_sends :
  let w := Write (conn client) frame in
  SendWelcome cb client =
  (Returned (match snd (fst w) with Some _ => -1 | None => 0 end),
   set_conn (snd w) client).
Proof.
  rewrite SendWelcome_data.
  rewrite SendPacket_in_bounds
    by (rewrite welcome_frame_length; unfold WelcomeSize; lia).
  replace (firstn (Z.to_nat WelcomeSize) frame) with frame.
  - reflexivity.
  - symmetry. apply firstn_all2. rewrite welcome_frame_length.
    unfold WelcomeSize. lia.
Qed.

Lemma SendWelcome_sent :
  sent (conn (snd (SendWelcome cb client))) = sent (conn client) ++ [frame].
Proof. rewrite SendWelcome_sends. reflexivity. Qed.

Lemma SendWelcome_crypt :
  clientCrypt (snd (SendWelcome cb client)) = clientCrypt client
  /\ serverCrypt (snd (SendWelcome cb client)) = serverCrypt client.
Proof. rewrite SendWelcome_sends. split; reflexivity. Qed.
End WelcomeFrame.

Lemma copyrightBytes_banner :
  copyrightBytes
  = bytes_of_string bbCopyright ++ repeat 0 (96 - String.length bbCopyright)
  /\ forallb is_byte copyrightBytes = true
  /\ length copyrightBytes = 96%nat.
Proof. repeat split; vm_compute; reflexivity. Qed.

(** C1.  For a client whose two cipher vectors are 48 bytes each, with the
    banner buffer as package initialisation leaves it, [SendWelcome] writes
    one 200-byte frame to the connection: the header [Size = 200],
    [Type = 0x03], [Padding = 0], little-endian, in bytes 0..7; the 96-byte
    banner, the copyright string followed by zeros, from byte 8; the server
    vector from byte 104 and the client vector from byte 152. *)
Theorem SendWelcome_frame : forall client,
  length (Vector (serverCrypt client)) = 48%nat ->
  length (Vector (clientCrypt client)) = 48%nat ->
  forallb is_byte (Vector (serverCrypt client)) = true ->
  forallb is_byte (Vector (clientCrypt client)) = true ->
  (String.length bbCopyright < 96)%nat
  /\ exists frame,
       sent (conn (snd (SendWelcome copyrightBytes client)))
       = sent (conn client) ++ [frame]
       /\ length frame = 200%nat
       /\ slice frame 0 8 = [200; 0; WelcomeType; 0; 0; 0; 0; 0]
       /\ le_value (slice frame 0 2) = 200
       /\ le_value (slice frame 2 2) = WelcomeType
       /\ slice frame 8 96
          = bytes_of_string bbCopyright
              ++ repeat 0 (96 - String.length bbCopyright)
       /\ slice frame 104 48 = Vector (serverCrypt client)
       /\ slice frame 152 48 = Vector (clientCrypt client).
Proof.
  intros client Hsv Hcv Hsb Hcb.
  split; [vm_compute; lia |].
  destruct copyrightBytes_banner as (Hbanner & Hbytes & Hblen).
  eexists. split; [apply SendWelcome_sent |].
  split; [apply welcome_frame_length |].
  rewrite !go_copy_full by (rewrite repeat_length; assumption).
  rewrite !map_uint8_bytes by assumption.
  rewrite <- Hbanner.
  set (sv := Vector (serverCrypt client)) in *.
  set (cv := Vector (clientCrypt client)) in *.
  set (hdr := [200; 0; 3; 0; 0; 0; 0; 0]).
  assert (Hh : length hdr = 8%nat) by reflexivity.
  assert (Hhb : length (hdr ++ copyrightBytes) = 104%nat)
    by (rewrite length_app, Hh, Hblen; reflexivity).
  assert (Hhbs : length ((hdr ++ copyrightBytes) ++ sv) = 152%nat)
    by (rewrite length_app, Hhb, Hsv; reflexivity).
  unfold slice.
  split; [| split; [| split; [| split; [| split]]]].
  - rewrite skipn_O. apply (firstn_app_exact hdr _ 8 Hh).
  - reflexivity.
  - reflexivity.
  - rewrite (skipn_app_exact hdr _ 8 Hh).
    apply (firstn_app_exact _ _ 96 Hblen).
  - rewrite app_assoc, (skipn_app_exact _ _ 104 Hhb).
    apply (firstn_app_exact _ _ 48 Hsv).
  - rewrite app_assoc, app_assoc, (skipn_app_exact _ _ 152 Hhbs).
    apply firstn_all2. lia.
Qed.

Lemma SendWelcome_frame_witness :
  (String.length bbCopyright < 96)%nat
  /\ exists frame,
       sent (conn (snd (SendWelcome copyrightBytes (sample_client good_conn))))
       = sent (conn (sample_client good_conn)) ++ [frame]
       /\ length frame = 200%nat
       /\ slice frame 0 8 = [200; 0; WelcomeType; 0; 0; 0; 0; 0]
       /\ le_value (slice frame 0 2) = 200
       /\ le_value (slice frame 2 2) = WelcomeType
       /\ slice frame 8 96
          = bytes_of_string bbCopyright
              ++ repeat 0 (96 - String.length bbCopyright)
       /\ slice frame 104 48 = Vector (serverCrypt (sample_client good_conn))
       /\ slice frame 152 48 = Vector (clientCrypt (sample_client good_conn)).
Proof.
  apply (SendWelcome_frame (sample_client good_conn)); reflexivity.
Defined.

(** ** configuration.go *)

(** C7.  With [Hostname = "127.0.0.1"] and the cache as the process starts
    it (all zero), [HostnameBytes] returns [127, 0, 0, 1] and leaves it in
    the cache; a further call returns the same bytes from the cache without
    reading the hostname; and in general a cache whose first byte is not 0
    is returned as it is, a first byte 0 meaning "not computed yet". *)
Theorem HostnameBytes_cached : forall config,
  Hostname config = "127.0.0.1"%string ->
  HostnameBytes config cachedHostBytes_zero
  = (Returned [127; 0; 0; 1], [127; 0; 0; 1])
  /\ HostnameBytes config (snd (HostnameBytes config cachedHostBytes_zero))
     = (Returned [127; 0; 0; 1], [127; 0; 0; 1])
  /\ (forall config' cache,
        nth 0 cache 0 <> 0 ->
        HostnameBytes config' cache = (Returned cache, cache))
  /\ (forall cache,
        nth 0 cache 0 = 0 -> length cache = 4%nat ->
        HostnameBytes config cache
        = (Returned [127; 0; 0; 1], [127; 0; 0; 1])).
Proof.
  intros config Hhost.
  assert (Hfirst : HostnameBytes config cachedHostBytes_zero
                   = (Returned [127; 0; 0; 1], [127; 0; 0; 1])).
  { unfold HostnameBytes. rewrite Hhost. reflexivity. }
  split; [exact Hfirst |].
  split; [rewrite Hfirst; reflexivity |].
  split.
  - intros config' cache Hnz. unfold HostnameBytes.
    destruct (Z.eqb_spec (nth 0 cache 0) 0); [contradiction | reflexivity].
  - intros cache Hz Hlen. unfold HostnameBytes.
    rewrite Hz, Hhost.
    destruct cache as [| a [| b [| c [| d [| ? ?]]]]]; try discriminate.
    reflexivity.
Qed.

Lemma HostnameBytes_cached_witness :
  HostnameBytes (set_Hostname "127.0.0.1" new_configuration) cachedHostBytes_zero
  = (Returned [127; 0; 0; 1], [127; 0; 0; 1])
  /\ HostnameBytes (set_Hostname "127.0.0.1" new_configuration)
       (snd (HostnameBytes (set_Hostname "127.0.0.1" new_configuration)
               cachedHostBytes_zero))
     = (Returned [127; 0; 0; 1], [127; 0; 0; 1]).
Proof.
  split.
  - refine (proj1 (HostnameBytes_cached
                     (set_Hostname "127.0.0.1" new_configuration) _)).
    reflexivity.
  - refine (proj1 (proj2 (HostnameBytes_cached
                            (set_Hostname "127.0.0.1" new_configuration) _))).
    reflexivity.
Defined.

(** C9.  [Database] on a configuration whose handle is nil panics with the
    message "Attempt to reference uninitialized database" and returns
    nothing; on a configuration with a handle it returns that handle. *)
Theorem Database_panics_when_uninitialized : forall config,
  (database config = None ->
   Database config = Panicked "Attempt to reference uninitialized database")
  /\ (forall db, database config = Some db -> Database config = Returned db).
Proof.
  intros config. unfold Database. split.
  - intros ->. reflexivity.
  - intros db ->. reflexivity.
Qed.

Lemma Database_panics_when_uninitialized_witness :
  Database new_configuration
  = Panicked "Attempt to reference uninitialized database"
  /\ Database
       (mkConfiguration "h" "1" "2" "dbh" "3306" "archon" "u" "p" "log" 2
          false (Some (mkDB "u:p@tcp(dbh:3306)/archon")))
     = Returned (mkDB "u:p@tcp(dbh:3306)/archon").
Proof.
  split.
  - apply (proj1 (Database_panics_when_uninitialized new_configuration)).
    reflexivity.
  - apply (proj2 (Database_panics_when_uninitialized _)). reflexivity.
Defined.

Lemma enforceDefaults_fields c :
  let c' := enforceDefaults c in
  Hostname c'
  = (if String.eqb (Hostname c) EmptyString then "127.0.0.1"%string
     else Hostname c)
  /\ LoginPort c'
     = (if String.eqb (LoginPort c) EmptyString then "12000"%string
        else LoginPort c)
  /\ CharacterPort c'
     = (if String.eqb (CharacterPort c) EmptyString then "12001"%string
        else CharacterPort c)
  /\ LogLevel c'
     = (if (1 <=? LogLevel c) && (LogLevel c <=? 4) then LogLevel c else 1)
  /\ DBHost c' = DBHost c /\ DBPort c' = DBPort c /\ DBName c' = DBName c
  /\ DBUsername c' = DBUsername c /\ DBPassword c' = DBPassword c
  /\ Logfile c' = Logfile c /\ DebugMode c' = DebugMode c
  /\ database c' = database c.
Proof.
  destruct c as [h lp cp dh dp dn du dpw lf ll dm db].
  unfold enforceDefaults, LogPriorityCritical, LogPriorityLow.
  simpl.
  destruct (String.eqb h EmptyString); simpl;
    destruct (String.eqb lp EmptyString); simpl;
    destruct (String.eqb cp EmptyString); simpl;
    destruct (Z.ltb_spec ll 1), (Z.gtb_spec ll 4), (Z.leb_spec 1 ll),
      (Z.leb_spec ll 4); try lia; simpl; repeat split; reflexivity.
Qed.

Lemma enforceDefaults_enforced c : defaults_enforced (enforceDefaults c).
Proof.
  destruct (enforceDefaults_fields c) as (Hh & Hl & Hc & Hll & _).
  unfold defaults_enforced, LogPriorityCritical, LogPriorityLow.
  rewrite Hh, Hl, Hc, Hll.
  repeat split.
  - destruct (String.eqb_spec (Hostname c) EmptyString);
      [discriminate | assumption].
  - destruct (String.eqb_spec (LoginPort c) EmptyString);
      [discriminate | assumption].
  - destruct (String.eqb_spec (CharacterPort c) EmptyString);
      [discriminate | assumption].
  - destruct (Z.leb_spec 1 (LogLevel c)), (Z.leb_spec (LogLevel c) 4);
      simpl; lia.
  - destruct (Z.leb_spec 1 (LogLevel c)), (Z.leb_spec (LogLevel c) 4);
      simpl; lia.
Qed.

(** C10.  [enforceDefaults] leaves a configuration whose [Hostname],
    [LoginPort] and [CharacterPort] are not empty (an empty one has become
    "127.0.0.1", "12000", "12001") and whose [LogLevel] is within 1..4 (one
    outside has become 1, critical); values that were already admissible
    and all other fields are as before.  Every [InitFromFile] that returns
    no error ends with [enforceDefaults], so its configuration satisfies
    the same. *)
Theorem enforceDefaults_invariant :
  (forall c,
     let c' := enforceDefaults c in
     defaults_enforced c'
     /\ Hostname c'
        = (if String.eqb (Hostname c) EmptyString then "127.0.0.1"%string
           else Hostname c)
     /\ LoginPort c'
        = (if String.eqb (LoginPort c) EmptyString then "12000"%string
           else LoginPort c)
     /\ CharacterPort c'
        = (if String.eqb (CharacterPort c) EmptyString then "12001"%string
           else CharacterPort c)
     /\ LogLevel c'
        = (if (1 <=? LogLevel c) && (LogLevel c <=? 4) then LogLevel c else 1)
     /\ DBHost c' = DBHost c /\ DBPort c' = DBPort c /\ DBName c' = DBName c
     /\ DBUsername c' = DBUsername c /\ DBPassword c' = DBPassword c
     /\ Logfile c' = Logfile c /\ DebugMode c' = DebugMode c
     /\ database c' = database c)
  /\ (forall ReadFile Unmarshal c fileName c',
        InitFromFile ReadFile Unmarshal c fileName = (None, c') ->
        defaults_enforced c'
        /\ c' = enforceDefaults (Unmarshal (fst (ReadFile fileName)) c)).
Proof.
  split.
  - intros c c'. split.
    + apply enforceDefaults_enforced.
    + apply enforceDefaults_fields.
  - intros ReadFile Unmarshal c fileName c' H.
    unfold InitFromFile in H.
    destruct (ReadFile fileName) as [data [e |]]; [discriminate |].
    injection H as <-. split.
    + apply enforceDefaults_enforced.
    + reflexivity.
Qed.

Lemma enforceDefaults_invariant_witness :
  defaults_enforced
    (snd (InitFromFile (fun _ => ([], None)) (fun _ c => set_LogLevel 9 c)
            new_configuration loginConfigFile)).
Proof.
  refine (proj1 (proj2 enforceDefaults_invariant
                   (fun _ => ([], None)) (fun _ c => set_LogLevel 9 c)
                   new_configuration loginConfigFile _ _)).
  reflexivity.
Defined.

(** * Further properties of the code *)

(** ** enforceDefaults and InitFromFile *)

Lemma enforceDefaults_fixes c :
  defaults_enforced c -> enforceDefaults c = c.
Proof.
  unfold defaults_enforced, LogPriorityCritical, LogPriorityLow.
  intros (Hh & Hlp & Hcp & Hll).
  pose proof (enforceDefaults_fields c) as H. cbv zeta in H.
  apply String.eqb_neq in Hh, Hlp, Hcp.
  rewrite Hh, Hlp, Hcp in H.
  replace ((1 <=? LogLevel c) && (LogLevel c <=? 4)) with true in H
    by (symmetry; apply andb_true_intro; split; apply Z.leb_le; lia).
  destruct (enforceDefaults c), c. cbn in H.
  destruct H as (-> & -> & -> & -> & -> & -> & -> & -> & -> & -> & -> & ->).
  reflexivity.
Qed.

(** X1.  [enforceDefaults] changes nothing exactly on the configurations
    that already have a host name, both ports and a log level within
    1..4; hence applying it twice is applying it once. *)
Theorem enforceDefaults_idempotent : forall c,
  (enforceDefaults c = c <-> defaults_enforced c)
  /\ enforceDefaults (enforceDefaults c) = enforceDefaults c.
Proof.
  intros c. split; [split |].
  - intros <-. apply enforceDefaults_enforced.
  - apply enforceDefaults_fixes.
  - apply enforceDefaults_fixes, enforceDefaults_enforced.
Qed.

(** X2.  [InitFromFile] fails exactly when the file cannot be read; it then
    returns the read error and leaves the configuration as it was, defaults
    not applied.  Whatever the JSON decoder makes of the bytes, a file that
    could be read gives no error. *)
Theorem InitFromFile_fails_only_on_read : forall ReadFile Unmarshal c fileName,
  (fst (InitFromFile ReadFile Unmarshal c fileName) = snd (ReadFile fileName))
  /\ (snd (ReadFile fileName) <> None ->
      snd (InitFromFile ReadFile Unmarshal c fileName) = c)
  /\ (snd (ReadFile fileName) = None ->
      snd (InitFromFile ReadFile Unmarshal c fileName)
      = enforceDefaults (Unmarshal (fst (ReadFile fileName)) c)).
Proof.
  intros ReadFile Unmarshal c fileName. unfold InitFromFile.
  destruct (ReadFile fileName) as [data [e |]]; simpl.
  - split; [reflexivity |]. split; [reflexivity | discriminate].
  - split; [reflexivity |]. split; [| reflexivity].
    intros H. now contradiction H.
Qed.

Lemma InitFromFile_fails_only_on_read_witness :
  snd (InitFromFile (fun _ => ([], Some "no such file"%string))
         (fun _ c => set_LogLevel 3 c) new_configuration loginConfigFile)
  = new_configuration.
Proof.
  refine (proj1 (proj2 (InitFromFile_fails_only_on_read
                          (fun _ => ([], Some "no such file"%string))
                          (fun _ c => set_LogLevel 3 c)
                          new_configuration loginConfigFile)) _).
  discriminate.
Defined.

(** ** HostnameBytes *)

Lemma Split_length s sep : length (Split s sep) = S (count_char sep s).
Proof.
  induction s as [| c s IHs]; simpl.
  - reflexivity.
  - destruct (Ascii.eqb c sep); simpl.
    + now rewrite IHs.
    + destruct (Split s sep) as [| part parts]; simpl in *; lia.
Qed.

Lemma Split_no_sep s sep : count_char sep s = 0%nat -> Split s sep = [s].
Proof.
  induction s as [| c s IHs]; simpl; intros H.
  - reflexivity.
  - destruct (Ascii.eqb c sep); [discriminate |].
    now rewrite (IHs H).
Qed.

Lemma Split_append s t sep :
  count_char sep s = 0%nat ->
  Split (s ++ String sep t) sep = s :: Split t sep.
Proof.
  induction s as [| c s IHs]; simpl; intros H.
  - now rewrite Ascii.eqb_refl.
  - destruct (Ascii.eqb c sep); [discriminate |].
    now rewrite (IHs H).
Qed.

(** With four parts or more and nothing cached, all four bytes are
    written, each the [uint8] of what [ParseUint] made of its part. *)
Lemma HostnameBytes_four_parts config cache p0 p1 p2 p3 rest :
  Split (Hostname config) "."%char = p0 :: p1 :: p2 :: p3 :: rest ->
  length cache = 4%nat ->
  nth 0 cache 0 = 0 ->
  let bs := map (fun p => uint8 (fst (ParseUint p))) [p0; p1; p2; p3] in
  HostnameBytes config cache = (Returned bs, bs).
Proof.
  intros Hsplit Hlen Hzero.
  destruct cache as [| a [| b [| c [| d [| ? ?]]]]]; try discriminate.
  unfold HostnameBytes. rewrite Hzero, Hsplit. simpl.
  destruct (ParseUint p0), (ParseUint p1), (ParseUint p2), (ParseUint p3).
  reflexivity.
Qed.

Lemma HostnameBytes_few_parts config cache :
  (length (Split (Hostname config) "."%char) < 4)%nat ->
  nth 0 cache 0 = 0 ->
  exists cache',
    HostnameBytes config cache = (Panicked "index out of range", cache').
Proof.
  intros Hparts Hzero. unfold HostnameBytes. rewrite Hzero. simpl.
  destruct (Split (Hostname config) ".") as [| p0 [| p1 [| p2 [| p3 rest]]]];
    simpl in *; try lia;
    repeat match goal with
      | |- context [ParseUint ?p] => destruct (ParseUint p)
      end;
    eexists; reflexivity.
Qed.

(** X3.  Before anything is cached, [HostnameBytes] panics exactly when the
    host name has fewer than three dots (a name such as "localhost"): the
    loop indexes four parts of the split without checking how many there
    are. *)
Theorem HostnameBytes_panics_iff_few_dots : forall config cache,
  length cache = 4%nat ->
  nth 0 cache 0 = 0 ->
  ((exists msg, fst (HostnameBytes config cache) = Panicked msg)
   <-> (count_char "."%char (Hostname config) < 3)%nat).
Proof.
  intros config cache Hlen Hzero. split.
  - intros [msg Hpanic].
    destruct (Nat.lt_ge_cases (count_char "." (Hostname config)) 3)
      as [Hlt | Hge]; [exact Hlt | exfalso].
    pose proof (Split_length (Hostname config) ".") as Hsl.
    destruct (Split (Hostname config) ".")
      as [| p0 [| p1 [| p2 [| p3 rest]]]] eqn:Hsplit;
      simpl in Hsl; try lia.
    rewrite (HostnameBytes_four_parts _ _ _ _ _ _ _ Hsplit Hlen Hzero)
      in Hpanic.
    discriminate.
  - intros Hlt.
    destruct (HostnameBytes_few_parts config cache) as [cache' H].
    + rewrite Split_length. lia.
    + exact Hzero.
    + exists "index out of range"%string. now rewrite H.
Qed.

Lemma HostnameBytes_panics_iff_few_dots_witness :
  exists msg,
    fst (HostnameBytes (set_Hostname "localhost" new_configuration)
           cachedHostBytes_zero) = Panicked msg.
Proof.
  apply (proj2 (HostnameBytes_panics_iff_few_dots
                  (set_Hostname "localhost" new_configuration)
                  cachedHostBytes_zero eq_refl eq_refl)).
  vm_compute. lia.
Defined.

Lemma byte_cases (P : Z -> bool) :
  forallb P (map Z.of_nat (seq 0 256)) = true ->
  forall n, 0 <= n <= 255 -> P n = true.
Proof.
  intros H n Hn. rewrite forallb_forall in H. apply H.
  apply in_map_iff. exists (Z.to_nat n). split; [lia |].
  apply in_seq. lia.
Qed.

Lemma decimal_no_dot n :
  0 <= n <= 255 -> count_char "."%char (decimal n) = 0%nat.
Proof.
  intros Hn. apply Nat.eqb_eq.
  apply (byte_cases (fun n => Nat.eqb (count_char "." (decimal n)) 0));
    [vm_compute; reflexivity | exact Hn].
Qed.

Lemma ParseUint_decimal n : 0 <= n <= 255 -> ParseUint (decimal n) = (n, None).
Proof.
  intros Hn.
  pose proof (byte_cases
                (fun n => match ParseUint (decimal n) with
                          | (m, None) => m =? n
                          | _ => false
                          end)) as H.
  specialize (H ltac:(vm_compute; reflexivity) n Hn). cbv beta in H.
  destruct (ParseUint (decimal n)) as [m [e |]]; [discriminate |].
  apply Z.eqb_eq in H. now subst m.
Qed.

Lemma Split_dotted_quad a b c d :
  0 <= a <= 255 -> 0 <= b <= 255 -> 0 <= c <= 255 -> 0 <= d <= 255 ->
  Split (dotted_quad a b c d) "."%char
  = [decimal a; decimal b; decimal c; decimal d].
Proof.
  intros Ha Hb Hc Hd. unfold dotted_quad.
  assert (Hstep : forall s t, count_char "."%char s = 0%nat ->
                    Split (s ++ "." ++ t) "."%char = s :: Split t "."%char)
    by (intros s t; apply Split_append).
  rewrite !Hstep by (apply decimal_no_dot; assumption).
  rewrite Split_no_sep by (apply decimal_no_dot; assumption).
  reflexivity.
Qed.

Lemma HostnameBytes_of_dotted_quad config cache a b c d :
  Hostname config = dotted_quad a b c d ->
  0 <= a <= 255 -> 0 <= b <= 255 -> 0 <= c <= 255 -> 0 <= d <= 255 ->
  length cache = 4%nat ->
  nth 0 cache 0 = 0 ->
  HostnameBytes config cache = (Returned [a; b; c; d], [a; b; c; d]).
Proof.
  intros Hhost Ha Hb Hc Hd Hlen Hzero.
  pose proof (Split_dotted_quad a b c d Ha Hb Hc Hd) as Hsplit.
  rewrite <- Hhost in Hsplit.
  rewrite (HostnameBytes_four_parts _ _ _ _ _ _ _ Hsplit Hlen Hzero).
  cbn [map]. rewrite !ParseUint_decimal by assumption. cbn [fst].
  rewrite !uint8_byte by (unfold is_byte; apply andb_true_intro; split;
                          [apply Z.leb_le | apply Z.ltb_lt]; lia).
  reflexivity.
Qed.

Lemma HostnameBytes_hit config cache :
  nth 0 cache 0 <> 0 -> HostnameBytes config cache = (Returned cache, cache).
Proof.
  intros Hnz. unfold HostnameBytes.
  destruct (Z.eqb_spec (nth 0 cache 0) 0); [contradiction | reflexivity].
Qed.

(** X4.  For every IPv4 address in dotted-decimal notation as host name,
    with nothing cached yet, [HostnameBytes] returns its four octets in
    order and stores them in the cache. *)
Theorem HostnameBytes_parses_ipv4 : forall config cache a b c d,
  Hostname config = dotted_quad a b c d ->
  0 <= a <= 255 -> 0 <= b <= 255 -> 0 <= c <= 255 -> 0 <= d <= 255 ->
  length cache = 4%nat ->
  nth 0 cache 0 = 0 ->
  HostnameBytes config cache = (Returned [a; b; c; d], [a; b; c; d]).
Proof. exact HostnameBytes_of_dotted_quad. Qed.

Lemma HostnameBytes_parses_ipv4_witness :
  HostnameBytes (set_Hostname "192.168.1.20" new_configuration)
    cachedHostBytes_zero
  = (Returned [192; 168; 1; 20], [192; 168; 1; 20]).
Proof.
  apply (HostnameBytes_parses_ipv4
           (set_Hostname "192.168.1.20" new_configuration)
           cachedHostBytes_zero 192 168 1 20);
    first [reflexivity | lia].
Defined.

(** X5.  What a second call returns after the host name was changed from
    one IPv4 address to another: the first address when its first octet is
    not 0 (the cache is never refreshed), the second address when the
    first octet is 0, since a leading 0 is read as "nothing cached". *)
Theorem HostnameBytes_after_reconfiguration :
  forall config config' a b c d a' b' c' d',
  Hostname config = dotted_quad a b c d ->
  Hostname config' = dotted_quad a' b' c' d' ->
  0 <= a <= 255 -> 0 <= b <= 255 -> 0 <= c <= 255 -> 0 <= d <= 255 ->
  0 <= a' <= 255 -> 0 <= b' <= 255 -> 0 <= c' <= 255 -> 0 <= d' <= 255 ->
  fst (HostnameBytes config'
         (snd (HostnameBytes config cachedHostBytes_zero)))
  = Returned (if a =? 0 then [a'; b'; c'; d'] else [a; b; c; d]).
Proof.
  intros config config' a b c d a' b' c' d' Hh Hh' Ha Hb Hc Hd Ha' Hb' Hc' Hd'.
  rewrite (HostnameBytes_of_dotted_quad config cachedHostBytes_zero a b c d)
    by (assumption || reflexivity).
  cbn [snd].
  destruct (Z.eqb_spec a 0) as [-> | Hnz].
  - rewrite (HostnameBytes_of_dotted_quad config' _ a' b' c' d')
      by (assumption || reflexivity).
    reflexivity.
  - rewrite HostnameBytes_hit by exact Hnz. reflexivity.
Qed.

Lemma HostnameBytes_after_reconfiguration_witness :
  fst (HostnameBytes (set_Hostname "10.0.0.2" new_configuration)
         (snd (HostnameBytes (set_Hostname "0.0.0.0" new_configuration)
                 cachedHostBytes_zero)))
  = Returned [10; 0; 0; 2]
  /\ fst (HostnameBytes (set_Hostname "10.0.0.2" new_configuration)
            (snd (HostnameBytes (set_Hostname "127.0.0.1" new_configuration)
                    cachedHostBytes_zero)))
     = Returned [127; 0; 0; 1].
Proof.
  split.
  - apply (HostnameBytes_after_reconfiguration
             (set_Hostname "0.0.0.0" new_configuration)
             (set_Hostname "10.0.0.2" new_configuration)
             0 0 0 0 10 0 0 2); first [reflexivity | lia].
  - apply (HostnameBytes_after_reconfiguration
             (set_Hostname "127.0.0.1" new_configuration)
             (set_Hostname "10.0.0.2" new_configuration)
             127 0 0 1 10 0 0 2); first [reflexivity | lia].
Defined.

(** X6.  A configuration that came without a host name resolves, after
    [enforceDefaults], to the loopback address 127.0.0.1. *)
Theorem HostnameBytes_default_host : forall c cache,
  Hostname c = EmptyString ->
  length cache = 4%nat ->
  nth 0 cache 0 = 0 ->
  HostnameBytes (enforceDefaults c) cache
  = (Returned [127; 0; 0; 1], [127; 0; 0; 1]).
Proof.
  intros c cache Hempty Hlen Hzero.
  apply (HostnameBytes_of_dotted_quad _ _ 127 0 0 1);
    try lia; try assumption.
  destruct (enforceDefaults_fields c) as (Hh & _).
  rewrite Hh, Hempty. reflexivity.
Qed.

Lemma HostnameBytes_default_host_witness :
  HostnameBytes (enforceDefaults new_configuration) cachedHostBytes_zero
  = (Returned [127; 0; 0; 1], [127; 0; 0; 1]).
Proof.
  apply (HostnameBytes_default_host new_configuration cachedHostBytes_zero);
    reflexivity.
Defined.

(** ** GetConfig and LogMsg *)

Section LogMsgFacts.
Variable timestamp : string.
Variable OpenFile : string -> option error.
Variable WriteString : string -> string -> option error.

Local Notation "'log'" := (LogMsg timestamp OpenFile WriteString).

Lemma LogMsg_silent st message logType priority :
  fst (log st message logType priority) = []
  <-> LogLevel (fst (GetConfig st)) < priority.
Proof.
  unfold LogMsg.
  destruct (GetConfig st) as [config st']. cbn [fst].
  destruct (Z.gtb_spec priority (LogLevel config)) as [Hgt | Hle].
  - split; [lia | reflexivity].
  - split; [| lia].
    destruct (String.eqb (Logfile config) EmptyString); [discriminate |].
    destruct (OpenFile logFileName); [discriminate |].
    destruct (WriteString logFileName _); discriminate.
Qed.

Lemma LogMsg_state st message logType priority :
  snd (log st message logType priority) = snd (GetConfig st).
Proof.
  unfold LogMsg.
  destruct (GetConfig st) as [config st']. cbn [snd].
  destruct (priority >? LogLevel config); [reflexivity |].
  destruct (String.eqb (Logfile config) EmptyString); [reflexivity |].
  destruct (OpenFile logFileName); [reflexivity |].
  destruct (WriteString logFileName _); reflexivity.
Qed.

(** The text [LogMsg] builds, by the tag of the log type. *)
Lemma LogMsg_events st message logType priority :
  fst (log st message logType priority)
  = let config := fst (GetConfig st) in
    let logMsg :=
      match log_tag logType with
      | Some tag => (timestamp ++ tag ++ message ++ nl)%string
      | None => EmptyString
      end in
    if priority >? LogLevel config then []
    else if String.eqb (Logfile config) EmptyString then [Printf logMsg []]
    else
      match OpenFile logFileName with
      | Some err =>
          [OpenFile_ logFileName;
           Printf (nl ++ "WARNING: Failed to open log file %s: %s" ++ nl)
             [ArgNilFile; ArgErrorText err]]
      | None =>
          match WriteString logFileName logMsg with
          | Some err =>
              [OpenFile_ logFileName;
               WriteString_ logFileName logMsg;
               Printf (nl ++ "WARNING: Error writing to log file: %s" ++ nl)
                 [ArgError err];
               Close_ logFileName]
          | None =>
              [OpenFile_ logFileName;
               WriteString_ logFileName logMsg;
               Close_ logFileName]
          end
      end.
Proof.
  unfold LogMsg, log_tag.
  destruct (GetConfig st) as [config st']. cbn [fst]. cbv zeta.
  destruct (priority >? LogLevel config); [reflexivity |].
  destruct (logType =? LogTypeError);
    [| destruct (logType =? LogTypeWarning);
       [| destruct (logType =? LogTypeInfo)]];
    (destruct (String.eqb (Logfile config) EmptyString); [reflexivity |];
     destruct (OpenFile logFileName); [reflexivity |];
     destruct (WriteString logFileName _); reflexivity).
Qed.

Lemma LogMsg_line st message logType priority line :
  line <> EmptyString ->
  (In (Printf line []) (fst (log st message logType priority))
   \/ In (WriteString_ logFileName line)
        (fst (log st message logType priority)))
  <-> (priority <= LogLevel (fst (GetConfig st))
       /\ (exists tag,
             log_tag logType = Some tag
             /\ line = (timestamp ++ tag ++ message ++ nl)%string)
       /\ (Logfile (fst (GetConfig st)) = EmptyString
           \/ OpenFile logFileName = None)).
Proof.
  intros Hline. rewrite LogMsg_events. cbv zeta.
  set (config := fst (GetConfig st)).
  assert (Htag : forall text,
            text = match log_tag logType with
                   | Some tag => (timestamp ++ tag ++ message ++ nl)%string
                   | None => EmptyString
                   end ->
            text = line ->
            exists tag, log_tag logType = Some tag
                        /\ line = (timestamp ++ tag ++ message ++ nl)%string).
  { intros text Htext <-. destruct (log_tag logType) as [tag |].
    - exists tag. now split.
    - contradiction. }
  destruct (Z.gtb_spec priority (LogLevel config)) as [Hgt | Hle].
  { split.
    - intros [[] | []].
    - intros (Hp & _). lia. }
  destruct (String.eqb_spec (Logfile config) EmptyString) as [Hempty | Hfile].
  { split.
    - intros [[H | []] | [H | []]]; [| discriminate].
      injection H as H.
      split; [exact Hle |]. split; [| now left].
      now apply (Htag _ eq_refl).
    - intros (_ & (tag & -> & ->) & _). left. now left. }
  destruct (OpenFile logFileName) as [err |].
  { split.
    - intros [[H | [H | []]] | [H | [H | []]]]; discriminate.
    - intros (_ & _ & [H | H]); [contradiction | discriminate]. }
  split.
  - intros H.
    assert (Hw : match log_tag logType with
                 | Some tag => (timestamp ++ tag ++ message ++ nl)%string
                 | None => EmptyString
                 end = line).
    { destruct (WriteString logFileName _);
        simpl in H; intuition (try discriminate); congruence. }
    split; [exact Hle |]. split; [| now right].
    now apply (Htag _ eq_refl).
  - intros (_ & (tag & -> & ->) & _). right.
    destruct (WriteString logFileName _); simpl; auto.
Qed.

(** X7.  A message whose priority number is above the configured
    [LogLevel] causes nothing at all.  A non-empty line is passed to
    [fmt.Printf] or to [WriteString] on the log file exactly when the
    message is not above the level, the log type is one of the three known
    ones, and either no [Logfile] is configured or the log file could be
    opened; the line is then time stamp, tag, message and a newline.  For
    any other log type only the empty string is passed on. *)
Theorem LogMsg_hands_line_iff : forall st message logType priority,
  (LogLevel (fst (GetConfig st)) < priority ->
   fst (log st message logType priority) = [])
  /\ (forall line,
        line <> EmptyString ->
        (In (Printf line []) (fst (log st message logType priority))
         \/ In (WriteString_ logFileName line)
              (fst (log st message logType priority)))
        <-> (priority <= LogLevel (fst (GetConfig st))
             /\ (exists tag,
                   log_tag logType = Some tag
                   /\ line = (timestamp ++ tag ++ message ++ nl)%string)
             /\ (Logfile (fst (GetConfig st)) = EmptyString
                 \/ OpenFile logFileName = None))).
Proof.
  intros st message logType priority. split.
  - apply LogMsg_silent.
  - intros line. apply LogMsg_line.
Qed.


(** X9.  A non-empty [Logfile] setting only switches logging from standard
    output to a file: which path it names has no influence on what
    [LogMsg] does, and the one file ever opened, written or closed is
    "login_server.log". *)
Theorem LogMsg_ignores_Logfile_path : forall c path message logType priority,
  Logfile c <> EmptyString ->
  path <> EmptyString ->
  fst (log (Some (set_Logfile path c)) message logType priority)
  = fst (log (Some c) message logType priority)
  /\ Forall (fun e => forall name, event_file e = Some name ->
                                   name = "login_server.log"%string)
       (fst (log (Some c) message logType priority)).
Proof.
  intros c path message logType priority Hc Hpath.
  apply String.eqb_neq in Hc, Hpath.
  unfold LogMsg. cbn [GetConfig].
  replace (LogLevel (set_Logfile path c)) with (LogLevel c)
    by (destruct c; reflexivity).
  replace (Logfile (set_Logfile path c)) with path
    by (destruct c; reflexivity).
  rewrite Hc, Hpath.
  destruct (priority >? LogLevel c).
  - split; [reflexivity | constructor].
  - destruct (OpenFile logFileName);
      [| destruct (WriteString logFileName _)];
      (split; [reflexivity |]);
      repeat constructor; simpl; intros name Hname;
      try discriminate; now injection Hname as <-.
Qed.

(** X10.  [GetConfig] allocates the zero configuration on first use and
    from then on returns the configuration the package variable holds,
    leaving the variable alone; [LogMsg] changes the variable in just that
    way. *)
Theorem GetConfig_singleton : forall st message logType priority,
  snd (GetConfig st) = Some (fst (GetConfig st))
  /\ GetConfig (snd (GetConfig st)) = GetConfig st
  /\ (st = None -> fst (GetConfig st) = new_configuration)
  /\ (forall c, st = Some c -> GetConfig st = (c, st))
  /\ snd (log st message logType priority) = snd (GetConfig st).
Proof.
  intros st message logType priority.
  split; [| split; [| split; [| split]]].
  - destruct st; reflexivity.
  - destruct st; reflexivity.
  - intros ->. reflexivity.
  - intros c ->. reflexivity.
  - apply LogMsg_state.
Qed.
End LogMsgFacts.

Lemma LogMsg_hands_line_iff_witness :
  In (Printf ("26-10-31 12:00:00" ++ " [INFO] " ++ "started" ++ nl) [])
    (fst (LogMsg "26-10-31 12:00:00" (fun _ => None) (fun _ _ => None)
            (Some (enforceDefaults new_configuration))
            "started" LogTypeInfo LogPriorityCritical))
  \/ In (WriteString_ logFileName
           ("26-10-31 12:00:00" ++ " [INFO] " ++ "started" ++ nl))
       (fst (LogMsg "26-10-31 12:00:00" (fun _ => None) (fun _ _ => None)
               (Some (enforceDefaults new_configuration))
               "started" LogTypeInfo LogPriorityCritical)).
Proof.
  refine (proj2 (proj2 (LogMsg_hands_line_iff
                          "26-10-31 12:00:00" (fun _ => None)
                          (fun _ _ => None)
                          (Some (enforceDefaults new_configuration))
                          "started" LogTypeInfo LogPriorityCritical)
                   ("26-10-31 12:00:00" ++ " [INFO] " ++ "started" ++ nl)%string
                   _) _).
  - discriminate.
  - split; [simpl; lia |].
    split; [| left; reflexivity].
    exists " [INFO] "%string. split; reflexivity.
Defined.


Lemma LogMsg_ignores_Logfile_path_witness :
  fst (LogMsg "26-10-31 12:00:00" (fun _ => None) (fun _ _ => None)
         (Some (set_Logfile "/var/log/archon.log"
                  (set_Logfile "a.log" (enforceDefaults new_configuration))))
         "started" LogTypeInfo LogPriorityCritical)
  = fst (LogMsg "26-10-31 12:00:00" (fun _ => None) (fun _ _ => None)
           (Some (set_Logfile "a.log" (enforceDefaults new_configuration)))
           "started" LogTypeInfo LogPriorityCritical).
Proof.
  refine (proj1 (LogMsg_ignores_Logfile_path
                   "26-10-31 12:00:00" (fun _ => None) (fun _ _ => None)
                   (set_Logfile "a.log" (enforceDefaults new_configuration))
                   "/var/log/archon.log" "started" LogTypeInfo
                   LogPriorityCritical _ _)); discriminate.
Defined.

(** ** InitDb and Database *)

(** X11.  When [sql.Open] returns a handle and no error, [InitDb] installs
    the handle and returns nil whether or not the ping that follows
    succeeds: a database that cannot be reached is not reported, and
    [Database] hands out its handle. *)
Theorem InitDb_swallows_ping_failure : forall sql_Open Ping c db,
  sql_Open "mysql"%string (dbName c) = (Some db, None) ->
  InitDb sql_Open Ping c = (Returned None, set_database (Some db) c)
  /\ Database (snd (InitDb sql_Open Ping c)) = Returned db.
Proof.
  intros sql_Open Ping c db Hopen.
  assert (H : InitDb sql_Open Ping c
              = (Returned None, set_database (Some db) c)).
  { unfold InitDb. rewrite Hopen.
    replace (database (set_database (Some db) c)) with (Some db)
      by (destruct c; reflexivity).
    destruct (Ping db); reflexivity. }
  split; [exact H |].
  rewrite H. destruct c; reflexivity.
Qed.

Lemma InitDb_swallows_ping_failure_witness :
  InitDb (fun _ dsn => (Some (mkDB dsn), None))
    (fun _ => Some "connection refused"%string) new_configuration
  = (Returned None,
     set_database (Some (mkDB ":@tcp(:)/")) new_configuration)
  /\ Database
       (snd (InitDb (fun _ dsn => (Some (mkDB dsn), None))
               (fun _ => Some "connection refused"%string) new_configuration))
     = Returned (mkDB ":@tcp(:)/").
Proof.
  apply (InitDb_swallows_ping_failure
           (fun _ dsn => (Some (mkDB dsn), None))
           (fun _ => Some "connection refused"%string) new_configuration
           (mkDB ":@tcp(:)/")).
  reflexivity.
Defined.

(** X12.  When [sql.Open] fails, [InitDb] returns its error and the
    configuration holds the nil handle that came with it, also when it
    held an open handle before; [Database] then panics. *)
Theorem InitDb_failure_clears_handle : forall sql_Open Ping c e,
  sql_Open "mysql"%string (dbName c) = (None, Some e) ->
  fst (InitDb sql_Open Ping c) = Returned (Some e)
  /\ database (snd (InitDb sql_Open Ping c)) = None
  /\ Database (snd (InitDb sql_Open Ping c))
     = Panicked "Attempt to reference uninitialized database".
Proof.
  intros sql_Open Ping c e Hopen.
  unfold InitDb. rewrite Hopen. cbn [fst snd].
  destruct c; repeat split.
Qed.

Lemma InitDb_failure_clears_handle_witness :
  Database
    (snd (InitDb (fun _ _ => (None, Some "unknown driver"%string))
            (fun _ => None)
            (set_database (Some (mkDB "old")) new_configuration)))
  = Panicked "Attempt to reference uninitialized database".
Proof.
  refine (proj2 (proj2 (InitDb_failure_clears_handle
                          (fun _ _ => (None, Some "unknown driver"%string))
                          (fun _ => None)
                          (set_database (Some (mkDB "old")) new_configuration)
                          "unknown driver"%string _))).
  reflexivity.
Defined.

(** ** SendPacket and SendWelcome on any client *)

Lemma skipn_repeat_zero (n k : nat) :
  skipn k (repeat 0 n) = repeat 0 (n - k).
Proof.
  revert k; induction n as [| n IHn]; intros [| k]; simpl; trivial.
Qed.

Lemma go_copy_zeros n (src : list Z) :
  go_copy (repeat 0 n) src = firstn n src ++ repeat 0 (n - length src).
Proof.
  unfold go_copy. rewrite repeat_length, skipn_repeat_zero.
  destruct (Nat.le_ge_cases (length src) n) as [Hle | Hge].
  - rewrite Nat.min_r by exact Hle.
    rewrite (firstn_all2 src Hle), firstn_all. reflexivity.
  - rewrite Nat.min_l by exact Hge.
    replace (n - length src)%nat with 0%nat by lia.
    now rewrite Nat.sub_diag.
Qed.

Lemma forallb_firstn {A} (f : A -> bool) n l :
  forallb f l = true -> forallb f (firstn n l) = true.
Proof.
  revert n; induction l as [| x l IHl]; intros [| n] H; simpl in *; trivial.
  apply andb_prop in H as [Hx Hl]. now rewrite Hx, IHl.
Qed.

Lemma padded_bytes n l :
  forallb is_byte l = true ->
  map uint8 (firstn n l ++ repeat 0 (n - length l))
  = firstn n l ++ repeat 0 (n - length l).
Proof.
  intros H. apply map_uint8_bytes.
  rewrite forallb_app, (forallb_firstn _ _ _ H). simpl.
  induction (n - length l)%nat; simpl; trivial.
Qed.

Lemma padded_length n (l : list Z) :
  length (firstn n l ++ repeat 0 (n - length l)) = n.
Proof. rewrite length_app, length_firstn, repeat_length. lia. Qed.

(** X13.  Whatever the lengths of the two cipher vectors, [SendWelcome]
    does not panic and makes one write of a 200-byte frame whose [Size]
    field is the length of the frame; a vector shorter than 48 bytes is
    followed by zeros up to 48, a longer one is cut after 48 bytes; the
    result is -1 when the write returned an error and 0 otherwise. *)
Theorem SendWelcome_any_vectors : forall cb client,
  forallb is_byte (Vector (serverCrypt client)) = true ->
  forallb is_byte (Vector (clientCrypt client)) = true ->
  exists frame,
    SendWelcome cb client
    = (Returned (match snd (fst (Write (conn client) frame)) with
                 | Some _ => -1
                 | None => 0
                 end),
       set_conn (snd (Write (conn client) frame)) client)
    /\ length frame = 200%nat
    /\ le_value (slice frame 0 2) = Z.of_nat (length frame)
    /\ slice frame 104 48
       = firstn 48 (Vector (serverCrypt client))
           ++ repeat 0 (48 - length (Vector (serverCrypt client)))
    /\ slice frame 152 48
       = firstn 48 (Vector (clientCrypt client))
           ++ repeat 0 (48 - length (Vector (clientCrypt client))).
Proof.
  intros cb client Hsb Hcb.
  eexists. split; [apply SendWelcome_sends |].
  split; [apply welcome_frame_length |].
  split; [rewrite welcome_frame_length; reflexivity |].
  rewrite !go_copy_zeros.
  rewrite (padded_bytes 48 _ Hsb), (padded_bytes 48 _ Hcb).
  set (sv := firstn 48 (Vector (serverCrypt client)) ++ _).
  set (cv := firstn 48 (Vector (clientCrypt client)) ++ _).
  set (banner := map uint8 _).
  set (hdr := [200; 0; 3; 0; 0; 0; 0; 0]).
  assert (Hsv : length sv = 48%nat) by apply padded_length.
  assert (Hcv : length cv = 48%nat) by apply padded_length.
  assert (Hb : length banner = 96%nat).
  { subst banner. rewrite length_map. apply padded_length. }
  assert (Hhb : length (hdr ++ banner) = 104%nat)
    by (rewrite length_app, Hb; reflexivity).
  assert (Hhbs : length ((hdr ++ banner) ++ sv) = 152%nat)
    by (rewrite length_app, Hhb, Hsv; reflexivity).
  unfold slice. split.
  - rewrite app_assoc, (skipn_app_exact _ _ 104 Hhb).
    apply (firstn_app_exact _ _ 48 Hsv).
  - rewrite app_assoc, app_assoc, (skipn_app_exact _ _ 152 Hhbs).
    apply firstn_all2. lia.
Qed.

Lemma SendWelcome_any_vectors_witness :
  exists frame,
    SendWelcome copyrightBytes
      (mkClient broken_conn (mkPSOCrypt [1; 2; 3]) (mkPSOCrypt (repeat 9 60)))
    = (Returned (match snd (fst (Write broken_conn frame)) with
                 | Some _ => -1
                 | None => 0
                 end),
       set_conn (snd (Write broken_conn frame))
         (mkClient broken_conn (mkPSOCrypt [1; 2; 3])
            (mkPSOCrypt (repeat 9 60))))
    /\ length frame = 200%nat
    /\ le_value (slice frame 0 2) = Z.of_nat (length frame)
    /\ slice frame 104 48 = firstn 48 (repeat 9 60) ++ repeat 0 (48 - 60)
    /\ slice frame 152 48 = firstn 48 [1; 2; 3] ++ repeat 0 (48 - 3).
Proof.
  apply (SendWelcome_any_vectors copyrightBytes
           (mkClient broken_conn (mkPSOCrypt [1; 2; 3])
              (mkPSOCrypt (repeat 9 60))));
    reflexivity.
Defined.

(** X14.  Two [SendPacket] calls in a row on one client reach the
    connection as two writes in call order, after whatever was written
    before, each carrying exactly the first [length] bytes of its packet;
    the cipher states of the client are not touched. *)
Theorem SendPacket_twice_in_order : forall client p1 l1 p2 l2,
  0 <= l1 <= Z.of_nat (length p1) ->
  0 <= l2 <= Z.of_nat (length p2) ->
  let client' := snd (SendPacket (snd (SendPacket client p1 l1)) p2 l2) in
  sent (conn client')
  = sent (conn client)
      ++ [firstn (Z.to_nat l1) p1; firstn (Z.to_nat l2) p2]
  /\ clientCrypt client' = clientCrypt client
  /\ serverCrypt client' = serverCrypt client.
Proof.
  intros client p1 l1 p2 l2 H1 H2.
  rewrite (SendPacket_in_bounds client p1 l1 H1). cbv zeta. cbn [snd].
  rewrite (SendPacket_in_bounds _ p2 l2 H2). cbv zeta. cbn [snd].
  unfold set_conn, Write.
  cbn [conn sent clientCrypt serverCrypt snd].
  rewrite <- app_assoc. repeat split.
Qed.

Lemma SendPacket_twice_in_order_witness :
  sent (conn (snd (SendPacket
                     (snd (SendPacket (sample_client good_conn) [1; 2; 3] 2))
                     [4; 5; 6] 3)))
  = sent (conn (sample_client good_conn))
      ++ [firstn (Z.to_nat 2) [1; 2; 3]; firstn (Z.to_nat 3) [4; 5; 6]].
Proof.
  refine (proj1 (SendPacket_twice_in_order (sample_client good_conn)
                   [1; 2; 3] 2 [4; 5; 6] 3 _ _)); simpl; lia.
Defined.
